(** * loom-js: nonce middleware and transfer-gateway client

    A shallow embedding of [src/middleware/nonce-eth-tx-middleware.ts]
    (the [NonceEthTxMiddleware] class and the [isInvalidTxNonceError]
    classifier) and of the [TransferGateway] contract binding that follows it
    in the same source file (event handler, withdrawal builders, receipt
    query), together with the properties the specification states about
    them. *)

From Stdlib Require Import ZArith String Ascii List Lia Bool.
From Stdlib.Strings Require Import Byte.
From stdpp Require Import base option list gmap strings.

Local Open Scope Z_scope.

(** ** JavaScript values the code manipulates *)

Module Js.

(** [Uint8Array]. *)
Definition bytes : Type := list Byte.byte.

(** An [Error] object: the constructor that built it ([Error],
    [TypeError], ...) and its [message]. Every such object is an
    [instanceof Error]. *)
Record Error : Type := mkError { ctor : string; message : string }.

(** [new Error(msg)]. *)
Definition new_Error (msg : string) : Error := mkError "Error" msg.

(** A value of type [any]: what a [catch] clause can receive. Plain
    objects keep their string-valued properties, so that an object with a
    [message] property that is not an [Error] can be told apart from one
    that is. *)
Inductive any : Type :=
| VUndefined
| VNull
| VBoolean (b : bool)
| VNumber (n : Z)
| VString (s : string)
| VObject (props : gmap string string)
| VError (e : Error).

(** The outcome of a call that may throw (or of a promise that may
    reject). *)
Inductive result (A : Type) : Type :=
| Ok (a : A)
| Throw (v : any).
Arguments Ok {A} a.
Arguments Throw {A} v.

#[global] Instance result_ret : MRet result := fun _ a => Ok a.
#[global] Instance result_bind : MBind result := fun _ _ f m =>
  match m with
  | Ok a => f a
  | Throw v => Throw v
  end.
#[global] Instance result_fmap : FMap result := fun _ _ f m =>
  match m with
  | Ok a => Ok (f a)
  | Throw v => Throw v
  end.

(** [xs.map(f)] where [f] may throw: elements are visited from index 0
    upwards and the first exception aborts the loop. *)
Fixpoint map_throwing {A B : Type} (f : A -> result B) (xs : list A)
  : result (list B) :=
  match xs with
  | [] => Ok []
  | x :: rest =>
      y ← f x;
      ys ← map_throwing f rest;
      Ok (y :: ys)
  end.

(** Truthiness of a string in a condition: only the empty string is
    falsy. *)
Definition truthy (s : string) : bool := negb (String.eqb s "").

(** [s.indexOf(pat)]: the least position at which [pat] occurs in [s],
    or [-1]. *)
Fixpoint indexOf_from (i : Z) (s pat : string) : Z :=
  if String.prefix pat s then i
  else match s with
       | EmptyString => -1
       | String _ rest => indexOf_from (i + 1) rest pat
       end.

Definition indexOf (s pat : string) : Z := indexOf_from 0 s pat.

(** [pat] occurs somewhere inside [s]. *)
Definition occurs_in (pat s : string) : Prop :=
  exists before after : string, s = before +:+ pat +:+ after.

(** *** Numbers

    A [number] is an IEEE-754 binary64 value. The code only meets
    integer-valued ones (sequence numbers), which are modelled by the
    integer they denote. Arithmetic on them rounds the exact result to the
    nearest representable value, ties to the even significand; every
    integer of magnitude at most [2^53] is representable. *)
Definition MAX_SAFE_INTEGER : Z := 2 ^ 53 - 1.

Definition round_number (z : Z) : Z :=
  let a := Z.abs z in
  if a <=? 2 ^ 53 then z
  else
    let e := Z.log2 a - 52 in
    let q := a / 2 ^ e in
    let r := a mod 2 ^ e in
    let half := 2 ^ (e - 1) in
    let q' := if r <? half then q
              else if half <? r then q + 1
              else if Z.even q then q else q + 1 in
    Z.sgn z * (q' * 2 ^ e).

(** [a + b] on integer-valued numbers. *)
Definition number_add (a b : Z) : Z := round_number (a + b).

End Js.

Import Js.

(** ** The nonce middleware *)

Module NonceEthTxMiddleware.

Definition INVALID_TX_NONCE_ERROR : string := "Invalid tx nonce".

(** [isInvalidTxNonceError(err: any)]. *)
Definition isInvalidTxNonceError (err : any) : bool :=
  match err with
  | VError e => String.eqb (message e) INVALID_TX_NONCE_ERROR
  | _ => false
  end.

(** Modelled from the spec: the [ITxResults] interface of [../client],
    which is not part of the source at hand. A result set has an optional
    [validation] and an optional [commit] stage, each with an integer
    status [code] and a free-text [log] (which a stage may lack); the
    opaque [data] bytes are carried along. *)
Record ITxHandlerResult : Type := mkTxHandlerResult {
  code : Z;
  log : option string;
  data : option bytes
}.

Record ITxResults : Type := mkTxResults {
  validation : option ITxHandlerResult;
  commit : option ITxHandlerResult
}.

(** Modelled from the spec: the chain-state reader of [../client]. Only
    [getNonce2Async(key, account)] is used; the promise resolves to the
    last committed sequence number or rejects with a transport error. *)
Record Client : Type := mkClient {
  getNonce2Async : string -> string -> result Z
}.

(** The [NonceTx] protobuf message: opaque inner payload and sequence
    number. [new NonceTx()] has both fields at their defaults. *)
Record NonceTx : Type := mkNonceTx {
  inner : bytes;
  sequence : Z
}.

Definition new_NonceTx : NonceTx := mkNonceTx [] 0.
Definition setInner (tx : NonceTx) (b : bytes) : NonceTx :=
  mkNonceTx b (sequence tx).
Definition setSequence (tx : NonceTx) (n : Z) : NonceTx :=
  mkNonceTx (inner tx) n.

(** The object state set by the constructor. *)
Record t : Type := mk {
  _fromAddress : string;
  _client : Client
}.

Definition constructor (fromAddress : string) (client : Client) : t :=
  mk fromAddress client.

Section Handle.

(** [tx.serializeBinary()], the protobuf wire encoding generated into
    [../proto/loom_pb]; it is not part of the source at hand. *)
Variable serializeBinary : NonceTx -> bytes.

(** [Handle(txData)]. The [debug] line only prints [nonce + 1]. *)
Definition Handle (this : t) (txData : bytes) : result bytes :=
  nonce ← getNonce2Async (_client this) "eth" (_fromAddress this);
  let tx := new_NonceTx in
  let tx := setInner tx txData in
  let tx := setSequence tx (number_add nonce 1) in
  Ok (serializeBinary tx).

End Handle.

(** [HandleResults(results)]. *)
Definition HandleResults (results : ITxResults) : result ITxResults :=
  let validation := validation results in
  let commit := commit results in
  if match validation with
     | Some v =>
         (code v =? 1) &&
         match log v with
         | Some l =>
             truthy l &&
             negb (indexOf l "sequence number does not match" =? -1)
         | None => false
         end
     | None => false
     end
  then Throw (VError (new_Error INVALID_TX_NONCE_ERROR))
  else
    if match commit with
       | Some c =>
           (code c =? 1) &&
           match log c with
           | Some l =>
               truthy l &&
               negb (indexOf l "sequence number does not match" =? -1)
           | None => false
           end
       | None => false
       end
    then Throw (VError (new_Error INVALID_TX_NONCE_ERROR))
    else Ok results.

End NonceEthTxMiddleware.


(** ** The transfer gateway binding *)

Module TransferGateway.

(** [BN] of bn.js: an integer of arbitrary magnitude. *)
Definition BN : Type := Z.

(** [new BN(n)] for an integer-valued number: bn.js keeps the sign apart
    and asserts that the magnitude is below [2^53]; its failed assertion
    throws [Error('Assertion failed')]. *)
Definition new_BN (n : Z) : result BN :=
  if Z.abs n <? 2 ^ 53 then Ok n
  else Throw (VError (new_Error "Assertion failed")).

(** What the module imports from files that are not part of the source at
    hand: the protobuf messages [BigUInt] and [Address] and the token-kind
    enumeration of [../proto/transfer_gateway_pb], the marshalling helpers of
    [../big-uint] and [../address], [B64ToUint8Array] of [../crypto-utils]
    and [utils.splitSignature] of ethers. They are taken as parameters.
    Unmarshalling an address and splitting a signature validate their input
    and may throw. *)
Class Imports : Type := {
  BigUIntPB : Type;
  AddressPB : Type;
  Address : Type;
  Signature : Type;
  ETH : Z;
  ERC20 : Z;
  ERC721 : Z;
  ERC721X : Z;
  TokenKind_distinct : NoDup [ETH; ERC20; ERC721; ERC721X];
  marshalBigUIntPB : BN -> BigUIntPB;
  unmarshalBigUIntPB : BigUIntPB -> BN;
  Address_MarshalPB : Address -> AddressPB;
  Address_UnmarshalPB : AddressPB -> result Address;
  splitSignature : bytes -> result Signature;
  B64ToUint8Array : string -> bytes
}.

(** A message field that is not set reads as [undefined]. The non-null
    assertion [!] is erased at run time, so the callee receives [undefined]
    and throws a [TypeError] on its first property access. *)
Definition non_null {A : Type} (field : option A) : result A :=
  match field with
  | Some a => Ok a
  | None =>
      Throw (VError (mkError "TypeError" "Cannot read properties of undefined"))
  end.

(** *** Messages read through getters *)

(** [TransferGatewayTokenWithdrawalSigned]. *)
Module TokenWithdrawalSigned.
Record t `{Imports} : Type := mk {
  getTokenOwner : option AddressPB;
  getTokenContract : option AddressPB;
  getTokenKind : Z;
  getTokenId : option BigUIntPB;
  getTokenAmount : option BigUIntPB;
  getValidatorSignaturesList : list bytes
}.
Arguments mk {_}.
End TokenWithdrawalSigned.

(** [TransferGatewayContractMappingConfirmed]. *)
Module ContractMappingConfirmed.
Record t `{Imports} : Type := mk {
  getForeignContract : option AddressPB;
  getLocalContract : option AddressPB
}.
Arguments mk {_}.
End ContractMappingConfirmed.

(** The receipt inside a [TransferGatewayWithdrawalReceiptResponse]. *)
Module WithdrawalReceiptPB.
Record t `{Imports} : Type := mk {
  getTokenOwner : option AddressPB;
  getTokenContract : option AddressPB;
  getTokenKind : Z;
  getTokenId : option BigUIntPB;
  getTokenAmount : option BigUIntPB;
  getWithdrawalNonce : Z;
  getValidatorSignaturesList : list bytes
}.
Arguments mk {_}.
End WithdrawalReceiptPB.

(** [TransferGatewayWithdrawalReceiptResponse]. *)
Module WithdrawalReceiptResponse.
Record t `{Imports} : Type := mk {
  getReceipt : option WithdrawalReceiptPB.t
}.
Arguments mk {_}.
End WithdrawalReceiptResponse.

(** *** The exported interfaces *)

Module IWithdrawalReceipt.
Record t `{Imports} : Type := mk {
  tokenOwner : Address;
  tokenContract : Address;
  tokenKind : Z;
  tokenId : option BN;
  tokenAmount : option BN;
  withdrawalNonce : BN;
  value : BN;
  sigs : list Signature
}.
Arguments mk {_}.
End IWithdrawalReceipt.

Module ITokenWithdrawalEventArgs.
Record t `{Imports} : Type := mk {
  tokenOwner : Address;
  tokenContract : Address;
  tokenKind : Z;
  tokenId : option BN;
  tokenAmount : option BN;
  sigs : list Signature;
  value : BN
}.
Arguments mk {_}.
End ITokenWithdrawalEventArgs.

Module IContractMappingConfirmedEventArgs.
Record t `{Imports} : Type := mk {
  foreignContract : Address;
  localContract : Address
}.
Arguments mk {_}.
End IContractMappingConfirmedEventArgs.

(** *** Messages built through setters

    A request is only ever written: it starts empty and each [setX(v)]
    stores [v] under the field [x]. It is kept as the finite map of the
    fields that have been set. *)
Inductive FieldValue `{Imports} : Type :=
| FEnum (n : Z)
| FBigUInt (b : BigUIntPB)
| FAddress (a : AddressPB).

Record Message `{Imports} : Type := mkMessage {
  messageType : string;
  fields : gmap string FieldValue
}.

Definition new_Message `{Imports} (type : string) : Message :=
  {| messageType := type; fields := ∅ |}.

Definition set `{Imports} (field : string) (v : FieldValue) (req : Message)
  : Message :=
  {| messageType := messageType req;
     fields := <[field := v]> (fields req) |}.

(** What the gateway hands to the listeners of its two user events. *)
Inductive Emission `{Imports} : Type :=
| TokenWithdrawal (args : ITokenWithdrawalEventArgs.t)
| ContractMapping (args : IContractMappingConfirmedEventArgs.t).

(** *** The [Contract] base class

    Modelled from the spec: the contract call transport, [call(methodName,
    requestValue)] and [staticCall(methodName, requestValue, responseShape)],
    and the event source, which delivers a payload with its topics and
    base64 [data]. The decoders are the generated [deserializeBinary]
    functions of the two event messages. The object is an event emitter:
    [listeners] is what the listeners registered for a user event do, all
    together, when they are called with its arguments; an exception of
    theirs escapes from [emit]. *)
Record Contract `{Imports} : Type := mkContract {
  callAsync : string -> Message -> result unit;
  staticCallAsync : string -> Message -> result WithdrawalReceiptResponse.t;
  TokenWithdrawalSigned_deserializeBinary :
    bytes -> result TokenWithdrawalSigned.t;
  ContractMappingConfirmed_deserializeBinary :
    bytes -> result ContractMappingConfirmed.t;
  listeners : string -> Emission -> result unit
}.

Record IChainEventArgs : Type := mkEvent {
  topics : option (list string);
  data : string
}.

(** *** Effects of the event handler

    The handler hands bytes to a protobuf decoder and emits user events. A
    run is the list of these actions in program order, with its completion:
    normal, or the exception that escaped. *)
Inductive Action `{Imports} : Type :=
| Deserialize (message : string) (input : bytes)
| Emit (event : string) (args : Emission).

Definition traced `{Imports} (A : Type) : Type :=
  (list Action * result A)%type.

#[global] Instance traced_ret `{Imports} : MRet traced :=
  fun _ a => ([], Ok a).

#[global] Instance traced_bind `{Imports} : MBind traced := fun _ _ f m =>
  match m with
  | (acts, Ok a) => let '(acts', r) := f a in (acts ++ acts', r)
  | (acts, Throw v) => (acts, Throw v)
  end.

(** A computation without actions. *)
Definition lift `{Imports} {A : Type} (r : result A) : traced A := ([], r).

(** [Message.deserializeBinary(input)]. *)
Definition deserializeBinary `{Imports} {A : Type} (message : string)
  (decoder : bytes -> result A) (input : bytes) : traced A :=
  ([Deserialize message input], decoder input).

(** [this.emit(event, args)]: the listeners run synchronously, and the
    call completes as they do. *)
Definition emit `{Imports} (this : Contract) (event : string)
  (args : Emission) : traced unit :=
  ([Emit event args], listeners this event args).

(** *** Constants of the class *)

Definition EVENT_TOKEN_WITHDRAWAL : string := "event_token_withdrawal".
Definition EVENT_CONTRACT_MAPPING_CONFIRMED : string :=
  "event_contract_mapping_confirmed".
Definition tokenWithdrawalSignedEventTopic : string :=
  "event:TokenWithdrawalSigned".
Definition contractMappingConfirmedEventTopic : string :=
  "event:ContractMappingConfirmed".

(** *** The event handler installed by the constructor *)

(** The arguments of the token-withdrawal event, from the decoded message:
    the token-kind [switch] and then the object literal, whose properties
    are evaluated in the order written. *)
Definition tokenWithdrawalEventArgs `{Imports}
  (eventData : TokenWithdrawalSigned.t) : result ITokenWithdrawalEventArgs.t :=
  let tokenKind := TokenWithdrawalSigned.getTokenKind eventData in
  '(tokenId, tokenAmount, value) ←
    (if tokenKind =? ERC721 then
       tokenId ← unmarshalBigUIntPB <$>
                  non_null (TokenWithdrawalSigned.getTokenId eventData);
       Ok (Some tokenId, None, tokenId)
     else
       tokenId ←
         (if tokenKind =? ERC721X then
            tokenId ← unmarshalBigUIntPB <$>
                       non_null (TokenWithdrawalSigned.getTokenId eventData);
            Ok (Some tokenId)
          else Ok None);
       tokenAmount ← unmarshalBigUIntPB <$>
                      non_null (TokenWithdrawalSigned.getTokenAmount eventData);
       Ok (tokenId, Some tokenAmount, tokenAmount));
  tokenOwner ←
    non_null (TokenWithdrawalSigned.getTokenOwner eventData)
      ≫= Address_UnmarshalPB;
  tokenContract ←
    non_null (TokenWithdrawalSigned.getTokenContract eventData)
      ≫= Address_UnmarshalPB;
  sigs ← map_throwing splitSignature
            (TokenWithdrawalSigned.getValidatorSignaturesList eventData);
  Ok {| ITokenWithdrawalEventArgs.tokenOwner := tokenOwner;
        ITokenWithdrawalEventArgs.tokenContract := tokenContract;
        ITokenWithdrawalEventArgs.tokenKind := tokenKind;
        ITokenWithdrawalEventArgs.tokenId := tokenId;
        ITokenWithdrawalEventArgs.tokenAmount := tokenAmount;
        ITokenWithdrawalEventArgs.sigs := sigs;
        ITokenWithdrawalEventArgs.value := value |}.

(** The arguments of the contract-mapping event. *)
Definition contractMappingConfirmedEventArgs `{Imports}
  (contractMappingConfirmed : ContractMappingConfirmed.t)
  : result IContractMappingConfirmedEventArgs.t :=
  foreignContract ←
    non_null (ContractMappingConfirmed.getForeignContract
                contractMappingConfirmed)
      ≫= Address_UnmarshalPB;
  localContract ←
    non_null (ContractMappingConfirmed.getLocalContract
                contractMappingConfirmed)
      ≫= Address_UnmarshalPB;
  Ok {| IContractMappingConfirmedEventArgs.foreignContract := foreignContract;
        IContractMappingConfirmedEventArgs.localContract := localContract |}.

(** The callback registered with [this.on(Contract.EVENT, ...)]. A topics
    array that is missing or has length 0 returns at once; otherwise
    [event.topics[0]] is its head. *)
Definition on_Contract_EVENT `{Imports} (this : Contract)
  (event : IChainEventArgs) : traced unit :=
  match topics event with
  | None => mret tt
  | Some [] => mret tt
  | Some (topic0 :: _) =>
      if String.eqb topic0 tokenWithdrawalSignedEventTopic then
        eventData ←
          deserializeBinary "TransferGatewayTokenWithdrawalSigned"
            (TokenWithdrawalSigned_deserializeBinary this)
            (B64ToUint8Array (data event));
        args ← lift (tokenWithdrawalEventArgs eventData);
        emit this EVENT_TOKEN_WITHDRAWAL (TokenWithdrawal args)
      else if String.eqb topic0 contractMappingConfirmedEventTopic then
        contractMappingConfirmed ←
          deserializeBinary "TransferGatewayContractMappingConfirmed"
            (ContractMappingConfirmed_deserializeBinary this)
            (B64ToUint8Array (data event));
        args ← lift (contractMappingConfirmedEventArgs
                       contractMappingConfirmed);
        emit this EVENT_CONTRACT_MAPPING_CONFIRMED (ContractMapping args)
      else mret tt
  end.

(** *** Withdrawal requests *)

(** In each operation [if (recipient)] tests an optional [Address] object,
    which is truthy whenever it is given. *)

Definition withdrawERC721Async `{Imports} (this : Contract) (tokenId : BN)
  (tokenContract : Address) (recipient : option Address) : result unit :=
  let req := new_Message "TransferGatewayWithdrawTokenRequest" in
  let req := set "tokenKind" (FEnum ERC721) req in
  let req := set "tokenId" (FBigUInt (marshalBigUIntPB tokenId)) req in
  let req :=
    set "tokenContract" (FAddress (Address_MarshalPB tokenContract)) req in
  let req :=
    match recipient with
    | Some recipient =>
        set "recipient" (FAddress (Address_MarshalPB recipient)) req
    | None => req
    end in
  callAsync this "WithdrawToken" req.

Definition withdrawERC721XAsync `{Imports} (this : Contract) (tokenId : BN)
  (amount : BN) (tokenContract : Address) (recipient : option Address)
  : result unit :=
  let req := new_Message "TransferGatewayWithdrawTokenRequest" in
  let req := set "tokenKind" (FEnum ERC721X) req in
  let req := set "tokenId" (FBigUInt (marshalBigUIntPB tokenId)) req in
  let req := set "tokenAmount" (FBigUInt (marshalBigUIntPB amount)) req in
  let req :=
    set "tokenContract" (FAddress (Address_MarshalPB tokenContract)) req in
  let req :=
    match recipient with
    | Some recipient =>
        set "recipient" (FAddress (Address_MarshalPB recipient)) req
    | None => req
    end in
  callAsync this "WithdrawToken" req.

Definition withdrawERC20Async `{Imports} (this : Contract) (amount : BN)
  (tokenContract : Address) (recipient : option Address) : result unit :=
  let req := new_Message "TransferGatewayWithdrawTokenRequest" in
  let req := set "tokenKind" (FEnum ERC20) req in
  let req := set "tokenAmount" (FBigUInt (marshalBigUIntPB amount)) req in
  let req :=
    set "tokenContract" (FAddress (Address_MarshalPB tokenContract)) req in
  let req :=
    match recipient with
    | Some recipient =>
        set "recipient" (FAddress (Address_MarshalPB recipient)) req
    | None => req
    end in
  callAsync this "WithdrawToken" req.

Definition withdrawETHAsync `{Imports} (this : Contract) (amount : BN)
  (ethereumGateway : Address) (recipient : option Address) : result unit :=
  let req := new_Message "TransferGatewayWithdrawETHRequest" in
  let req := set "amount" (FBigUInt (marshalBigUIntPB amount)) req in
  let req :=
    set "mainnetGateway" (FAddress (Address_MarshalPB ethereumGateway)) req in
  let req :=
    match recipient with
    | Some recipient =>
        set "recipient" (FAddress (Address_MarshalPB recipient)) req
    | None => req
    end in
  callAsync this "WithdrawETH" req.

(** *** The receipt query *)

(** The body of [if (receipt) { ... }]: the token-kind [switch] and the
    returned object literal. *)
Definition withdrawalReceipt_of `{Imports} (receipt : WithdrawalReceiptPB.t)
  : result IWithdrawalReceipt.t :=
  let tokenKind := WithdrawalReceiptPB.getTokenKind receipt in
  '(tokenId, tokenAmount, value) ←
    (if tokenKind =? ERC721 then
       tokenId ← unmarshalBigUIntPB <$>
                  non_null (WithdrawalReceiptPB.getTokenId receipt);
       Ok (Some tokenId, None, tokenId)
     else
       tokenId ←
         (if tokenKind =? ERC721X then
            tokenId ← unmarshalBigUIntPB <$>
                       non_null (WithdrawalReceiptPB.getTokenId receipt);
            Ok (Some tokenId)
          else Ok None);
       tokenAmount ← unmarshalBigUIntPB <$>
                      non_null (WithdrawalReceiptPB.getTokenAmount receipt);
       Ok (tokenId, Some tokenAmount, tokenAmount));
  tokenOwner ←
    non_null (WithdrawalReceiptPB.getTokenOwner receipt)
      ≫= Address_UnmarshalPB;
  tokenContract ←
    non_null (WithdrawalReceiptPB.getTokenContract receipt)
      ≫= Address_UnmarshalPB;
  withdrawalNonce ←
    new_BN (WithdrawalReceiptPB.getWithdrawalNonce receipt);
  sigs ← map_throwing splitSignature
            (WithdrawalReceiptPB.getValidatorSignaturesList receipt);
  Ok {| IWithdrawalReceipt.tokenOwner := tokenOwner;
        IWithdrawalReceipt.tokenContract := tokenContract;
        IWithdrawalReceipt.tokenKind := tokenKind;
        IWithdrawalReceipt.tokenId := tokenId;
        IWithdrawalReceipt.tokenAmount := tokenAmount;
        IWithdrawalReceipt.withdrawalNonce := withdrawalNonce;
        IWithdrawalReceipt.value := value;
        IWithdrawalReceipt.sigs := sigs |}.

(** [withdrawalReceiptAsync(owner)]; [None] is the [null] result. *)
Definition withdrawalReceiptAsync `{Imports} (this : Contract)
  (owner : Address) : result (option IWithdrawalReceipt.t) :=
  let tgWithdrawReceiptReq :=
    new_Message "TransferGatewayWithdrawalReceiptRequest" in
  let tgWithdrawReceiptReq :=
    set "owner" (FAddress (Address_MarshalPB owner)) tgWithdrawReceiptReq in
  response ← staticCallAsync this "WithdrawalReceipt" tgWithdrawReceiptReq;
  let receipt := WithdrawalReceiptResponse.getReceipt response in
  match receipt with
  | Some receipt =>
      normalized ← withdrawalReceipt_of receipt;
      Ok (Some normalized)
  | None => Ok None
  end.

(** *** Creating the binding *)

(** The part of the [Client] class that [createAsync] uses:
    [getContractAddressAsync(name)] resolves to the address registered under
    [name] or to [null], or rejects. *)
Record GatewayClient `{Imports} : Type := mkGatewayClient {
  getContractAddressAsync : string -> result (option Address)
}.

(** A [TransferGateway] object, as the parameters its constructor hands to
    [super(params)]. *)
Record Gateway `{Imports} : Type := mkGateway {
  contractAddr : Address;
  callerAddr : Address;
  client : GatewayClient
}.
Arguments mkGateway {_}.

(** [TransferGateway.createAsync(client, callerAddr)]; a resolved [Address]
    object is truthy, [null] is not. *)
Definition createAsync `{Imports} (client : GatewayClient)
  (callerAddr : Address) : result Gateway :=
  contractAddr ← getContractAddressAsync client "gateway";
  match contractAddr with
  | None =>
      Throw (VError (new_Error
        "Failed to resolve contract address for TransferGateway"))
  | Some contractAddr => Ok (mkGateway contractAddr callerAddr client)
  end.

(** *** Reclaiming tokens and mapping contracts *)

Definition reclaimContractTokensAsync `{Imports} (this : Contract)
  (tokenContract : Address) : result unit :=
  let req := new_Message "TransferGatewayReclaimContractTokensRequest" in
  let req :=
    set "tokenContract" (FAddress (Address_MarshalPB tokenContract)) req in
  callAsync this "ReclaimContractTokens" req.

(** The requests of the two remaining operations hold raw bytes and a
    repeated address field. They are kept as the finite map of the fields
    that have been set, like the withdrawal requests, over these values. *)
Inductive WideFieldValue `{Imports} : Type :=
| WAddress (a : AddressPB)
| WBytes (b : bytes)
| WAddressList (l : list AddressPB).

Record WideMessage `{Imports} : Type := mkWideMessage {
  wideMessageType : string;
  wideFields : gmap string WideFieldValue
}.

Definition new_WideMessage `{Imports} (type : string) : WideMessage :=
  {| wideMessageType := type; wideFields := ∅ |}.

Definition wide_set `{Imports} (field : string) (v : WideFieldValue)
  (req : WideMessage) : WideMessage :=
  {| wideMessageType := wideMessageType req;
     wideFields := <[field := v]> (wideFields req) |}.

(** [this.callAsync] at these requests. *)
Record WideContract `{Imports} : Type := mkWideContract {
  wide_callAsync : string -> WideMessage -> result unit
}.

(** The [params] object of [addContractMappingAsync]. *)
Record ContractMappingParams `{Imports} : Type := mkMappingParams {
  foreignContract : Address;
  localContract : Address;
  foreignContractCreatorSig : bytes;
  foreignContractCreatorTxHash : bytes
}.

Definition addContractMappingAsync `{Imports} (this : WideContract)
  (params : ContractMappingParams) : result unit :=
  let foreignContract := foreignContract params in
  let localContract := localContract params in
  let foreignContractCreatorSig := foreignContractCreatorSig params in
  let foreignContractCreatorTxHash := foreignContractCreatorTxHash params in
  let mappingContractRequest :=
    new_WideMessage "TransferGatewayAddContractMappingRequest" in
  let mappingContractRequest :=
    wide_set "foreignContract" (WAddress (Address_MarshalPB foreignContract))
      mappingContractRequest in
  let mappingContractRequest :=
    wide_set "localContract" (WAddress (Address_MarshalPB localContract))
      mappingContractRequest in
  let mappingContractRequest :=
    wide_set "foreignContractCreatorSig" (WBytes foreignContractCreatorSig)
      mappingContractRequest in
  let mappingContractRequest :=
    wide_set "foreignContractTxHash" (WBytes foreignContractCreatorTxHash)
      mappingContractRequest in
  wide_callAsync this "AddContractMapping" mappingContractRequest.

(** [reclaimDepositorTokensAsync(depositors?)]: an array is truthy even
    when empty, so the test on its length decides. *)
Definition reclaimDepositorTokensAsync `{Imports} (this : WideContract)
  (depositors : option (list Address)) : result unit :=
  let req := new_WideMessage "TransferGatewayReclaimDepositorTokensRequest" in
  let req :=
    match depositors with
    | Some depositors =>
        if (0 <? length depositors)%nat
        then wide_set "depositorsList"
               (WAddressList (map Address_MarshalPB depositors)) req
        else req
    | None => req
    end in
  wide_callAsync this "ReclaimDepositorTokens" req.

End TransferGateway.


(** ** Concrete collaborators

    Small instances of the parameters above, on which the statements below
    are evaluated. *)

Module Sample.

Import NonceEthTxMiddleware TransferGateway.

Definition byte_of_Z (z : Z) : Byte.byte :=
  match Byte.of_N (Z.to_N (z mod 256)) with
  | Some b => b
  | None => Byte.x00
  end.

(** A wire form for [NonceTx]: the sequence number in eight little-endian
    bytes, then the payload. *)
Definition serializeBinary (tx : NonceTx) : bytes :=
  map (fun i : Z => byte_of_Z (sequence tx / 256 ^ i)) [0; 1; 2; 3; 4; 5; 6; 7]
  ++ inner tx.

(** A chain on which every account has committed [current] transactions. *)
Definition client_at (current : Z) : Client :=
  mkClient (fun _ _ => Ok current).

(** Result sets: a commit rejected for a stale sequence number; a commit
    rejected for another reason after a passing validation; a validation
    that reports the mismatch under status code 2; nothing at all. *)
Definition stale_commit : ITxResults :=
  mkTxResults None
    (Some (mkTxHandlerResult 1
             (Some "tx failed: sequence number does not match, expected 42")
             None)).

Definition insufficient_balance : ITxResults :=
  mkTxResults (Some (mkTxHandlerResult 0 None None))
    (Some (mkTxHandlerResult 1 (Some "insufficient balance") None)).

Definition mismatch_with_code_2 : ITxResults :=
  mkTxResults
    (Some (mkTxHandlerResult 2 (Some "sequence number does not match") None))
    None.

Definition no_stages : ITxResults := mkTxResults None None.

(** A 65-byte signature splits into [r], [s] and the recovery byte. *)
Record rsv : Type := mkRsv { r : bytes; s : bytes; v : Byte.byte }.

Definition split65 (sig : bytes) : result rsv :=
  if (length sig =? 65)%nat
  then Ok (mkRsv (take 32 sig) (take 32 (drop 32 sig))
                 (nth 64 sig Byte.x00))
  else Throw (VError (new_Error "invalid signature")).

Definition kinds_distinct : NoDup [0; 1; 2; 3] :=
  bool_decide_unpack (NoDup [0; 1; 2; 3]) I.

(** Amounts travel as themselves, addresses as text; the token kinds are
    numbered 0 to 3. *)
#[global] Instance imports : Imports := {|
  BigUIntPB := Z;
  AddressPB := string;
  Address := string;
  Signature := rsv;
  ETH := 0;
  ERC20 := 1;
  ERC721 := 2;
  ERC721X := 3;
  TokenKind_distinct := kinds_distinct;
  marshalBigUIntPB := fun n => n;
  unmarshalBigUIntPB := fun n => n;
  Address_MarshalPB := fun a => a;
  Address_UnmarshalPB := fun a => Ok a;
  splitSignature := split65;
  B64ToUint8Array := fun text => map byte_of_ascii (list_ascii_of_string text)
|}.

Definition sig_of (b : Byte.byte) : bytes := replicate 65 b.

(** A signed-withdrawal event message for a semi-fungible token. *)
Definition event_erc721x : TokenWithdrawalSigned.t :=
  {| TokenWithdrawalSigned.getTokenOwner := Some "owner";
     TokenWithdrawalSigned.getTokenContract := Some "contract";
     TokenWithdrawalSigned.getTokenKind := 3;
     TokenWithdrawalSigned.getTokenId := Some 3;
     TokenWithdrawalSigned.getTokenAmount := Some 500;
     TokenWithdrawalSigned.getValidatorSignaturesList :=
       [sig_of Byte.x01; sig_of Byte.x02] |}.

(** A stored receipt for a non-fungible token. *)
Definition receipt_erc721 : WithdrawalReceiptPB.t :=
  {| WithdrawalReceiptPB.getTokenOwner := Some "owner";
     WithdrawalReceiptPB.getTokenContract := Some "contract";
     WithdrawalReceiptPB.getTokenKind := 2;
     WithdrawalReceiptPB.getTokenId := Some 7;
     WithdrawalReceiptPB.getTokenAmount := None;
     WithdrawalReceiptPB.getWithdrawalNonce := 5;
     WithdrawalReceiptPB.getValidatorSignaturesList :=
       [sig_of Byte.x01; sig_of Byte.x02; sig_of Byte.x03] |}.

(** A stored receipt whose token kind is not one of the four known. *)
Definition receipt_unknown_kind : WithdrawalReceiptPB.t :=
  {| WithdrawalReceiptPB.getTokenOwner := Some "owner";
     WithdrawalReceiptPB.getTokenContract := Some "contract";
     WithdrawalReceiptPB.getTokenKind := 9;
     WithdrawalReceiptPB.getTokenId := None;
     WithdrawalReceiptPB.getTokenAmount := Some 1000;
     WithdrawalReceiptPB.getWithdrawalNonce := 6;
     WithdrawalReceiptPB.getValidatorSignaturesList := [sig_of Byte.x01] |}.

(** A gateway whose calls are accepted, whose receipt query answers
    [stored], and whose event decoders always yield the same messages. *)
Definition gateway (stored : option WithdrawalReceiptPB.t) : Contract :=
  {| callAsync := fun _ _ => Ok tt;
     staticCallAsync := fun _ _ =>
       Ok {| WithdrawalReceiptResponse.getReceipt := stored |};
     TokenWithdrawalSigned_deserializeBinary := fun _ => Ok event_erc721x;
     ContractMappingConfirmed_deserializeBinary := fun _ =>
       Ok {| ContractMappingConfirmed.getForeignContract := Some "foreign";
             ContractMappingConfirmed.getLocalContract := Some "local" |};
     listeners := fun _ _ => Ok tt |}.

(** A gateway whose event decoders reject every input. *)
Definition gateway_without_decoders : Contract :=
  {| callAsync := fun _ _ => Ok tt;
     staticCallAsync := fun _ _ =>
       Ok {| WithdrawalReceiptResponse.getReceipt := None |};
     TokenWithdrawalSigned_deserializeBinary := fun _ =>
       Throw (VError (new_Error "decode"));
     ContractMappingConfirmed_deserializeBinary := fun _ =>
       Throw (VError (new_Error "decode"));
     listeners := fun _ _ => Ok tt |}.

(** The accepting gateway with a listener that throws on every event. *)
Definition gateway_with_failing_listener : Contract :=
  {| callAsync := fun _ _ => Ok tt;
     staticCallAsync := fun _ _ =>
       Ok {| WithdrawalReceiptResponse.getReceipt := None |};
     TokenWithdrawalSigned_deserializeBinary := fun _ => Ok event_erc721x;
     ContractMappingConfirmed_deserializeBinary := fun _ =>
       Ok {| ContractMappingConfirmed.getForeignContract := Some "foreign";
             ContractMappingConfirmed.getLocalContract := Some "local" |};
     listeners := fun _ _ => Throw (VString "listener") |}.

(** A gateway whose transport is down. *)
Definition gateway_offline : Contract :=
  {| callAsync := fun _ _ => Throw (VString "offline");
     staticCallAsync := fun _ _ => Throw (VString "offline");
     TokenWithdrawalSigned_deserializeBinary := fun _ =>
       Throw (VString "offline");
     ContractMappingConfirmed_deserializeBinary := fun _ =>
       Throw (VString "offline");
     listeners := fun _ _ => Ok tt |}.


(** Events as the chain delivers them. *)
Definition event_without_topics : IChainEventArgs := mkEvent None "AAEC".
Definition event_other_topic : IChainEventArgs :=
  mkEvent (Some ["event:Transfer"; "event:TokenWithdrawalSigned"]) "AAEC".
Definition event_withdrawal_signed : IChainEventArgs :=
  mkEvent (Some ["event:TokenWithdrawalSigned"]) "AAEC".

(** A chain on which the gateway contract is deployed at [deployed], when
    it is deployed at all, and nothing else is. *)
Definition chain_with_gateway (deployed : option string) : GatewayClient :=
  {| getContractAddressAsync := fun name =>
       Ok (if String.eqb name "gateway" then deployed else None) |}.

(** A transport that accepts every wide request. *)
Definition wide_gateway : WideContract :=
  {| wide_callAsync := fun _ _ => Ok tt |}.

(** A signed-withdrawal event whose second signature is too short. *)
Definition event_bad_signature : TokenWithdrawalSigned.t :=
  {| TokenWithdrawalSigned.getTokenOwner := Some "owner";
     TokenWithdrawalSigned.getTokenContract := Some "contract";
     TokenWithdrawalSigned.getTokenKind := 1;
     TokenWithdrawalSigned.getTokenId := None;
     TokenWithdrawalSigned.getTokenAmount := Some 10;
     TokenWithdrawalSigned.getValidatorSignaturesList :=
       [sig_of Byte.x01; [Byte.x02]; sig_of Byte.x03] |}.

End Sample.


(** ** Vocabulary of the specification *)

Module Spec.

Import NonceEthTxMiddleware TransferGateway.

(** The text that marks a sequence-number mismatch in a stage's log. *)
Definition SEQUENCE_MISMATCH : string := "sequence number does not match".

(** The distinguished error of the middleware. *)
Definition ReplayNonceConflict : any :=
  VError (new_Error INVALID_TX_NONCE_ERROR).

(** A stage reports a sequence mismatch: it is present, its status code is a
    failure code, and its log contains the marker. Which codes count as
    failure is left to the reader of the predicate. *)
Definition stage_mismatch (failure : Z -> Prop)
  (stage : option ITxHandlerResult) : Prop :=
  exists st l,
    stage = Some st /\ failure (code st) /\
    log st = Some l /\ occurs_in SEQUENCE_MISMATCH l.

Definition mismatch (failure : Z -> Prop) (results : ITxResults) : Prop :=
  stage_mismatch failure (validation results) \/
  stage_mismatch failure (commit results).

(** Any non-zero status code. *)
Definition nonzero (c : Z) : Prop := c <> 0.

(** The one status code the middleware tests for. *)
Definition is_one (c : Z) : Prop := c = 1.

(** The decoding policy per token kind, relating the raw identifier and
    amount fields of a message to the normalized identifier, amount and
    legacy value. *)
Definition normalized_by_kind `{Imports} (kind : Z)
  (rawId rawAmount : option BigUIntPB) (tokenId tokenAmount : option BN)
  (value : BN) : Prop :=
  (kind = ERC721 ->
   exists id,
     rawId = Some id /\ tokenId = Some (unmarshalBigUIntPB id) /\
     value = unmarshalBigUIntPB id /\ tokenAmount = None) /\
  (kind = ERC721X ->
   exists id n,
     rawId = Some id /\ rawAmount = Some n /\
     tokenId = Some (unmarshalBigUIntPB id) /\
     tokenAmount = Some (unmarshalBigUIntPB n) /\
     value = unmarshalBigUIntPB n) /\
  (kind = ERC20 \/ kind = ETH ->
   exists n,
     rawAmount = Some n /\ tokenAmount = Some (unmarshalBigUIntPB n) /\
     value = unmarshalBigUIntPB n /\ tokenId = None).

(** What the default branch of the switch leaves behind. *)
Definition normalized_by_default `{Imports} (rawAmount : option BigUIntPB)
  (tokenId tokenAmount : option BN) (value : BN) : Prop :=
  tokenId = None /\
  exists n,
    rawAmount = Some n /\ tokenAmount = Some (unmarshalBigUIntPB n) /\
    value = unmarshalBigUIntPB n.

(** Modelled from the spec: the four token kinds of the withdrawal request
    builder. *)
Inductive Kind : Type := NonFungible | SemiFungible | Fungible | NativeCoin.

(** Modelled from the spec: the request fields of each token kind, by the
    names of their setters. *)
Definition fields_of_kind (kind : Kind) : gset string :=
  match kind with
  | NonFungible => {[ "tokenKind"; "tokenId"; "tokenContract" ]}
  | SemiFungible => {[ "tokenKind"; "tokenId"; "tokenAmount"; "tokenContract" ]}
  | Fungible => {[ "tokenKind"; "tokenAmount"; "tokenContract" ]}
  | NativeCoin => {[ "amount"; "mainnetGateway" ]}
  end.

(** The recipient field is there exactly when a recipient was given. *)
Definition recipient_field {A : Type} (recipient : option A) : gset string :=
  match recipient with
  | Some _ => {[ "recipient" ]}
  | None => ∅
  end.

(** An event the handler leaves alone: its topics are missing or empty, or
    its first topic is neither of the two the gateway listens for. *)
Definition ignored (event : IChainEventArgs) : Prop :=
  topics event = None \/ topics event = Some [] \/
  exists topic0 rest,
    topics event = Some (topic0 :: rest) /\
    topic0 <> tokenWithdrawalSignedEventTopic /\
    topic0 <> contractMappingConfirmedEventTopic.

End Spec.


(** ** Conditions on raw messages *)

Module Conditions.

Import TransferGateway Spec.

(** The raw token fields that the switch reads for a kind are set: the
    identifier for ERC721 and ERC721X, the amount for every kind but
    ERC721. *)
Definition token_fields_present `{Imports} (kind : Z)
  (rawId rawAmount : option BigUIntPB) : Prop :=
  (kind = ERC721 \/ kind = ERC721X -> is_Some rawId) /\
  (kind <> ERC721 -> is_Some rawAmount).

(** The [TypeError] of a dereferenced [undefined]. *)
Definition undefined_dereferenced : any :=
  VError (mkError "TypeError" "Cannot read properties of undefined").

(** An address field is set and unmarshals. *)
Definition address_decodes `{Imports} (field : option AddressPB) : Prop :=
  exists pb a, field = Some pb /\ Address_UnmarshalPB pb = Ok a.

(** Every raw signature splits. *)
Definition signatures_split `{Imports} (raw : list bytes) : Prop :=
  Forall (fun rawSig => exists sig, splitSignature rawSig = Ok sig) raw.

(** The event arguments that carry the fields of a normalized receipt. *)
Definition event_args_of `{Imports} (n : IWithdrawalReceipt.t)
  : ITokenWithdrawalEventArgs.t :=
  ITokenWithdrawalEventArgs.mk (IWithdrawalReceipt.tokenOwner n)
    (IWithdrawalReceipt.tokenContract n) (IWithdrawalReceipt.tokenKind n)
    (IWithdrawalReceipt.tokenId n) (IWithdrawalReceipt.tokenAmount n)
    (IWithdrawalReceipt.sigs n) (IWithdrawalReceipt.value n).

(** A withdrawal nonce that [new BN] accepts. *)
Definition nonce_in_range (nonce : Z) : Prop := Z.abs nonce < 2 ^ 53.

(** A stored receipt has all that its decoding reads: the token fields of
    its kind, an owner and a contract that unmarshal, a nonce in range and
    signatures that split. *)
Definition receipt_decodable `{Imports} (receipt : WithdrawalReceiptPB.t)
  : Prop :=
  token_fields_present (WithdrawalReceiptPB.getTokenKind receipt)
    (WithdrawalReceiptPB.getTokenId receipt)
    (WithdrawalReceiptPB.getTokenAmount receipt) /\
  address_decodes (WithdrawalReceiptPB.getTokenOwner receipt) /\
  address_decodes (WithdrawalReceiptPB.getTokenContract receipt) /\
  nonce_in_range (WithdrawalReceiptPB.getWithdrawalNonce receipt) /\
  signatures_split (WithdrawalReceiptPB.getValidatorSignaturesList receipt).

(** [n] is the normalized form of a raw receipt: owner and contract
    unmarshalled, each from its own field; kind and nonce as they are; the
    token fields by the policy of the kind; the signatures split entry by
    entry. *)
Definition normalizes `{Imports} (receipt : WithdrawalReceiptPB.t)
  (n : IWithdrawalReceipt.t) : Prop :=
  (exists owner,
     WithdrawalReceiptPB.getTokenOwner receipt = Some owner /\
     Address_UnmarshalPB owner = Ok (IWithdrawalReceipt.tokenOwner n)) /\
  (exists contract,
     WithdrawalReceiptPB.getTokenContract receipt = Some contract /\
     Address_UnmarshalPB contract =
     Ok (IWithdrawalReceipt.tokenContract n)) /\
  IWithdrawalReceipt.tokenKind n = WithdrawalReceiptPB.getTokenKind receipt /\
  IWithdrawalReceipt.withdrawalNonce n =
  WithdrawalReceiptPB.getWithdrawalNonce receipt /\
  normalized_by_kind (WithdrawalReceiptPB.getTokenKind receipt)
    (WithdrawalReceiptPB.getTokenId receipt)
    (WithdrawalReceiptPB.getTokenAmount receipt)
    (IWithdrawalReceipt.tokenId n) (IWithdrawalReceipt.tokenAmount n)
    (IWithdrawalReceipt.value n) /\
  (WithdrawalReceiptPB.getTokenKind receipt <> ERC721 ->
   WithdrawalReceiptPB.getTokenKind receipt <> ERC721X ->
   normalized_by_default (WithdrawalReceiptPB.getTokenAmount receipt)
     (IWithdrawalReceipt.tokenId n) (IWithdrawalReceipt.tokenAmount n)
     (IWithdrawalReceipt.value n)) /\
  Forall2 (fun rawSig sig => splitSignature rawSig = Ok sig)
    (WithdrawalReceiptPB.getValidatorSignaturesList receipt)
    (IWithdrawalReceipt.sigs n).

(** The three shapes a run of the event handler can have: nothing done; a
    decoding that threw; a decoding and then an emission, completed as the
    listeners of the emitted event complete. *)
Inductive HandlerRun `{Imports} (this : Contract) : traced unit -> Prop :=
| RunIgnored : HandlerRun this ([], Ok tt)
| RunFailed message input v :
    HandlerRun this ([Deserialize message input], Throw v)
| RunEmitted message input event args :
    HandlerRun this
      ([Deserialize message input; Emit event args],
       listeners this event args).

End Conditions.


(** ** Facts about the JavaScript primitives *)

Module JsFacts.

Lemma append_cons (c : ascii) (s t : string) :
  String c s +:+ t = String c (s +:+ t).
Proof. reflexivity. Qed.

Lemma prefix_iff_append (p s : string) :
  String.prefix p s = true <-> exists rest, s = p +:+ rest.
Proof.
  revert s. induction p as [|a p IH]; intros s; simpl.
  - destruct s; split; eauto.
  - destruct s as [|b s]; simpl.
    + split; [discriminate | intros [rest Hrest]; discriminate].
    + setoid_rewrite append_cons.
      destruct (ascii_dec a b) as [->|Hab].
      * rewrite IH. split; intros [rest Hrest]; exists rest; congruence.
      * split; [discriminate | intros [rest Hrest]; congruence].
Qed.

Lemma occurs_in_empty (pat : string) :
  occurs_in pat "" <-> pat = "".
Proof.
  split.
  - intros (before & after & Heq).
    destruct before; [destruct pat; [done | discriminate] | discriminate].
  - intros ->. by exists "", "".
Qed.

Lemma occurs_in_cons (pat : string) (c : ascii) (s : string) :
  occurs_in pat (String c s) <->
  String.prefix pat (String c s) = true \/ occurs_in pat s.
Proof.
  rewrite prefix_iff_append. split.
  - intros (before & after & Heq). destruct before as [|b before].
    + left. by exists after.
    + right. exists before, after. rewrite append_cons in Heq. congruence.
  - intros [[rest Hrest] | (before & after & Heq)].
    + by exists "", rest.
    + exists (String c before), after. by rewrite append_cons, Heq.
Qed.

Lemma indexOf_from_unfold (i : Z) (s pat : string) :
  indexOf_from i s pat =
  if String.prefix pat s then i
  else match s with
       | EmptyString => -1
       | String _ rest => indexOf_from (i + 1) rest pat
       end.
Proof. by destruct s. Qed.

(** Scanning from a non-negative position, the search yields [-1] exactly
    when the pattern does not occur. *)
Lemma indexOf_from_found (pat s : string) (i : Z) :
  0 <= i ->
  (indexOf_from i s pat <> -1 <-> occurs_in pat s) /\
  (indexOf_from i s pat = -1 \/ i <= indexOf_from i s pat).
Proof.
  revert i. induction s as [|c s IH]; intros i Hi;
    rewrite indexOf_from_unfold.
  - destruct (String.prefix pat "") eqn:Hp.
    + split; [|lia]. split; [|lia]. intros _.
      apply prefix_iff_append in Hp as [rest Hrest].
      apply occurs_in_empty. by destruct pat.
    + split; [|by left]. split; [done|].
      intros ->%occurs_in_empty. discriminate.
  - rewrite occurs_in_cons.
    destruct (String.prefix pat (String c s)) eqn:Hp.
    + split; [|lia]. split; [by left | lia].
    + destruct (IH (i + 1)) as [Hiff Hrange]; [lia|].
      split; [|lia]. rewrite Hiff.
      split; [by right | by intros [?|?]].
Qed.

Lemma indexOf_found (s pat : string) :
  indexOf s pat <> -1 <-> occurs_in pat s.
Proof. unfold indexOf. by apply indexOf_from_found. Qed.

(** The guard of [HandleResults] on a log text, for a pattern that is not
    empty: the truthiness test adds nothing to the search. *)
Lemma log_guard_iff (l pat : string) :
  pat <> "" ->
  truthy l && negb (indexOf l pat =? -1) = true <-> occurs_in pat l.
Proof.
  intros Hpat. rewrite andb_true_iff, negb_true_iff, Z.eqb_neq, indexOf_found.
  split; [tauto|]. intros Hocc. split; [|done].
  destruct l; [|done]. by apply occurs_in_empty in Hocc.
Qed.

(** Integers of magnitude at most [2^53] are numbers. *)
Lemma round_number_exact (z : Z) :
  Z.abs z <= 2 ^ 53 -> round_number z = z.
Proof.
  intros Hz. unfold round_number.
  destruct (Z.leb_spec (Z.abs z) (2 ^ 53)); [done | lia].
Qed.

(** Adding one to a safe non-negative integer is exact. *)
Lemma number_add_one_safe (n : Z) :
  0 <= n <= MAX_SAFE_INTEGER -> number_add n 1 = n + 1.
Proof.
  intros Hn. unfold number_add. apply round_number_exact.
  unfold MAX_SAFE_INTEGER in Hn. lia.
Qed.

End JsFacts.


(** ** Properties of the nonce middleware *)

Module MiddlewareProperties.

Import NonceEthTxMiddleware Spec JsFacts.

(** The condition tested on each stage, as a proposition. *)
Lemma stage_guard_iff (stage : option ITxHandlerResult) :
  match stage with
  | Some v =>
      (code v =? 1) &&
      match log v with
      | Some l =>
          truthy l && negb (indexOf l "sequence number does not match" =? -1)
      | None => false
      end
  | None => false
  end = true <-> stage_mismatch is_one stage.
Proof.
  unfold stage_mismatch, is_one. destruct stage as [v|].
  - rewrite andb_true_iff, Z.eqb_eq. destruct (log v) as [l|] eqn:Hlog.
    + rewrite log_guard_iff by done. split.
      * intros [Hcode Hocc]. by exists v, l.
      * intros (st & l' & [= <-] & Hcode & Hl & Hocc).
        rewrite Hlog in Hl. by injection Hl as <-.
    + split; [intros [_ [=]] | intros (st & l' & [= <-] & _ & Hl & _)].
      congruence.
  - split; [done | intros (st & l & [=] & _)].
Qed.

(** The two outcomes of [HandleResults]. *)
Lemma HandleResults_cases (results : ITxResults) :
  (mismatch is_one results /\
   HandleResults results = Throw ReplayNonceConflict) \/
  (~ mismatch is_one results /\ HandleResults results = Ok results).
Proof.
  unfold HandleResults, mismatch.
  pose proof (stage_guard_iff (validation results)) as Hv.
  pose proof (stage_guard_iff (commit results)) as Hc.
  destruct (match validation results with Some _ => _ | None => _ end).
  - left. split; [left; by apply Hv | done].
  - destruct (match commit results with Some _ => _ | None => _ end).
    + left. split; [right; by apply Hc | done].
    + right. split; [|done].
      intros [H|H]; [apply Hv in H | apply Hc in H]; discriminate.
Qed.

(** C1 (as the code has it). [HandleResults] throws the replay-nonce
    conflict exactly when the validation or the commit stage is present with
    status code 1 and a log that contains "sequence number does not match";
    in every other case, among them a result set without stages and a stage
    that failed for another reason, it returns its argument unchanged. *)
Theorem HandleResults_conflict_iff (results : ITxResults) :
  (HandleResults results = Throw ReplayNonceConflict <->
   mismatch is_one results) /\
  (HandleResults results = Ok results <-> ~ mismatch is_one results).
Proof.
  destruct (HandleResults_cases results) as [[Hm Hr] | [Hm Hr]];
    rewrite Hr; split; split; try done; try discriminate.
Qed.

(** A stale commit is a conflict; a commit rejected for insufficient
    balance and a result set without stages pass through. *)
Lemma HandleResults_conflict_iff_witness :
  HandleResults Sample.stale_commit = Throw ReplayNonceConflict /\
  ~ mismatch is_one Sample.insufficient_balance /\
  ~ mismatch is_one Sample.no_stages.
Proof.
  split; [|split].
  - apply (HandleResults_conflict_iff Sample.stale_commit). right.
    eexists _, _. split; [reflexivity|]. split; [reflexivity|].
    split; [reflexivity|]. by exists "tx failed: ", ", expected 42".
  - by apply (HandleResults_conflict_iff Sample.insufficient_balance).
  - by apply (HandleResults_conflict_iff Sample.no_stages).
Defined.

(** C1 (as stated) fails: a validation stage with status code 2 whose log
    carries the marker is a failed stage with a mismatch log, yet the result
    set is returned, not the conflict. *)
Lemma HandleResults_ignores_code_2 :
  mismatch nonzero Sample.mismatch_with_code_2 /\
  HandleResults Sample.mismatch_with_code_2 = Ok Sample.mismatch_with_code_2.
Proof.
  split; [|reflexivity]. left.
  eexists _, _. split; [reflexivity|]. split; [by unfold nonzero|].
  split; [reflexivity|]. by exists "", "".
Qed.

(** C9. Whatever [HandleResults] throws is [new Error('Invalid tx nonce')];
    the classifier accepts exactly the [Error] objects with that message;
    hence it accepts everything [HandleResults] throws. *)
Theorem HandleResults_throws_invalid_nonce :
  (forall results v,
     HandleResults results = Throw v ->
     v = VError (new_Error INVALID_TX_NONCE_ERROR)) /\
  (forall err,
     isInvalidTxNonceError err = true <->
     exists e, err = VError e /\ message e = INVALID_TX_NONCE_ERROR) /\
  (forall results v,
     HandleResults results = Throw v -> isInvalidTxNonceError v = true).
Proof.
  assert (Hthrown : forall results v,
            HandleResults results = Throw v ->
            v = VError (new_Error INVALID_TX_NONCE_ERROR)).
  { intros results v Hv.
    destruct (HandleResults_cases results) as [[_ Hr] | [_ Hr]];
      rewrite Hr in Hv; [by injection Hv as <- | discriminate]. }
  split; [done|]. split.
  - intros err. unfold isInvalidTxNonceError. split.
    + destruct err; try discriminate.
      intros Heq%String.eqb_eq. by eexists.
    + intros (e & -> & Hmsg). by apply String.eqb_eq.
  - intros results v ->%Hthrown. reflexivity.
Qed.

(** The stale commit makes [HandleResults] throw a value the classifier
    accepts; a plain object with the same message is not accepted. *)
Lemma HandleResults_throws_invalid_nonce_witness :
  (exists v, HandleResults Sample.stale_commit = Throw v /\
             isInvalidTxNonceError v = true) /\
  isInvalidTxNonceError
    (VObject {[ "message" := INVALID_TX_NONCE_ERROR ]}) = false.
Proof.
  split; [|reflexivity].
  exists (VError (new_Error INVALID_TX_NONCE_ERROR)).
  assert (Hrun : HandleResults Sample.stale_commit =
                 Throw (VError (new_Error INVALID_TX_NONCE_ERROR)))
    by reflexivity.
  split; [done|].
  by apply (proj2 (proj2 HandleResults_throws_invalid_nonce)
              Sample.stale_commit).
Defined.

Section Handle.

Variable serializeBinary : NonceTx -> bytes.

(** The envelope [Handle] serializes, for any reading of the chain. *)
Lemma Handle_envelope (this : t) (txData : bytes) (N : Z) :
  getNonce2Async (_client this) "eth" (_fromAddress this) = Ok N ->
  Handle serializeBinary this txData =
  Ok (serializeBinary (mkNonceTx txData (number_add N 1))).
Proof. intros HN. unfold Handle. by rewrite HN. Qed.

(** A failed read of the chain state is passed on. *)
Lemma Handle_reader_failure (this : t) (txData : bytes) (v : any) :
  getNonce2Async (_client this) "eth" (_fromAddress this) = Throw v ->
  Handle serializeBinary this txData = Throw v.
Proof. intros HN. unfold Handle. by rewrite HN. Qed.

(** C2 (as the code has it). For a middleware built for account
    [fromAddress], when the chain-state reader answers [N] for the pair
    ('eth', [fromAddress]) and [N] is a non-negative integer in the safe
    range of a number (at most [2^53 - 1]), [Handle] yields the
    serialization of the envelope whose sequence number is [N + 1] and whose
    inner payload is the input payload. *)
Theorem Handle_next_sequence (fromAddress : string) (client : Client)
  (txData : bytes) (N : Z) :
  getNonce2Async client "eth" fromAddress = Ok N ->
  0 <= N <= MAX_SAFE_INTEGER ->
  Handle serializeBinary (constructor fromAddress client) txData =
  Ok (serializeBinary (mkNonceTx txData (N + 1))).
Proof.
  intros HN Hsafe.
  rewrite (Handle_envelope (constructor fromAddress client) txData N HN).
  by rewrite number_add_one_safe.
Qed.

End Handle.

(** With 41 transactions committed the envelope carries 42. *)
Lemma Handle_next_sequence_witness :
  Handle Sample.serializeBinary (constructor "0xA1" (Sample.client_at 41))
    [Byte.x0a; Byte.x0b] =
  Ok (Sample.serializeBinary (mkNonceTx [Byte.x0a; Byte.x0b] 42)).
Proof.
  apply (Handle_next_sequence Sample.serializeBinary "0xA1"
           (Sample.client_at 41) [Byte.x0a; Byte.x0b] 41).
  - reflexivity.
  - unfold MAX_SAFE_INTEGER. lia.
Defined.

(** C2 (as stated) fails: when the reader answers [2^53], the sum
    [nonce + 1] rounds back to [2^53], and the envelope carries the current
    sequence number, not the next one. *)
Lemma Handle_sequence_beyond_safe_range :
  let this := constructor "0xA1" (Sample.client_at (2 ^ 53)) in
  getNonce2Async (_client this) "eth" (_fromAddress this) = Ok (2 ^ 53) /\
  Handle Sample.serializeBinary this [Byte.x0a] =
  Ok (Sample.serializeBinary (mkNonceTx [Byte.x0a] (2 ^ 53))) /\
  Handle Sample.serializeBinary this [Byte.x0a] <>
  Ok (Sample.serializeBinary (mkNonceTx [Byte.x0a] (2 ^ 53 + 1))).
Proof.
  split; [reflexivity|]. split; [by vm_compute|]. by vm_compute.
Qed.

End MiddlewareProperties.


(** ** Properties of the transfer gateway binding *)

Module GatewayProperties.

Import TransferGateway Spec Conditions.

(** *** Running the exception monad backwards *)

Lemma bind_Ok_inv {A B : Type} (m : result A) (f : A -> result B) (b : B) :
  m ≫= f = Ok b -> exists a, m = Ok a /\ f a = Ok b.
Proof. destruct m as [a|v]; [by exists a | discriminate]. Qed.

(** Peel the outermost bind of a successful run. *)
Ltac peel H :=
  let a := fresh "a" in
  let Ha := fresh "Hrun" in
  apply bind_Ok_inv in H as (a & Ha & H).

(** *** Mapping a function that may throw *)

Lemma map_throwing_Forall2 {A B : Type} (f : A -> result B) (xs : list A)
  (ys : list B) :
  map_throwing f xs = Ok ys <-> Forall2 (fun x y => f x = Ok y) xs ys.
Proof.
  revert ys. induction xs as [|x xs IH]; intros ys; simpl.
  - split.
    + intros [= <-]. constructor.
    + by intros ->%Forall2_nil_inv_l.
  - split.
    + intros Hrun. peel Hrun. peel Hrun. injection Hrun as <-.
      constructor; [done | by apply IH].
    + intros (y & ys' & Hy & Hys & ->)%Forall2_cons_inv_l.
      apply IH in Hys. unfold mbind, result_bind. by rewrite Hy, Hys.
Qed.

Lemma map_throwing_length {A B : Type} (f : A -> result B) (xs : list A)
  (ys : list B) :
  map_throwing f xs = Ok ys -> length ys = length xs.
Proof.
  intros Hrun%map_throwing_Forall2. symmetry. by eapply Forall2_length.
Qed.

Lemma map_throwing_lookup {A B : Type} (f : A -> result B) (xs : list A)
  (ys : list B) (i : nat) (x : A) :
  map_throwing f xs = Ok ys -> xs !! i = Some x ->
  exists y, ys !! i = Some y /\ f x = Ok y.
Proof.
  intros Hrun%map_throwing_Forall2 Hx.
  destruct (Forall2_lookup_l _ _ _ _ _ Hrun Hx) as (y & Hy & Hf). eauto.
Qed.

(** *** The token-kind switch *)

Section Decoding.

Context `{Imports}.

Lemma kinds_apart :
  ERC721X <> ERC721 /\ ERC20 <> ERC721 /\ ERC20 <> ERC721X /\
  ETH <> ERC721 /\ ETH <> ERC721X.
Proof.
  pose proof TokenKind_distinct as Hd.
  apply NoDup_cons in Hd as [H0 Hd]. apply NoDup_cons in Hd as [H1 Hd].
  apply NoDup_cons in Hd as [H2 _]. set_solver.
Qed.

(** ERC20 and ETH match neither [case] of the switch. *)
Lemma amount_kinds_skip_cases (kind : Z) :
  kind = ERC20 \/ kind = ETH ->
  (kind =? ERC721) = false /\ (kind =? ERC721X) = false.
Proof.
  destruct kinds_apart as (Hx & H20 & H20x & He & Hex).
  rewrite !Z.eqb_neq. intros [->| ->]; done.
Qed.

(** The switch of both decoders, on the kind and the two raw fields. *)
Lemma switch_cases (kind : Z) (rawId rawAmount : option BigUIntPB)
  (tokenId tokenAmount : option BN) (value : BN) :
  (if kind =? ERC721 then
     tokenId ← unmarshalBigUIntPB <$> non_null rawId;
     Ok (Some tokenId, None, tokenId)
   else
     tokenId ←
       (if kind =? ERC721X then
          tokenId ← unmarshalBigUIntPB <$> non_null rawId;
          Ok (Some tokenId)
        else Ok None);
     tokenAmount ← unmarshalBigUIntPB <$> non_null rawAmount;
     Ok (tokenId, Some tokenAmount, tokenAmount)) =
  Ok (tokenId, tokenAmount, value) ->
  normalized_by_kind kind rawId rawAmount tokenId tokenAmount value /\
  (kind <> ERC721 -> kind <> ERC721X ->
   normalized_by_default rawAmount tokenId tokenAmount value).
Proof.
  destruct kinds_apart as (Hx & H20 & H20x & He & Hex).
  unfold normalized_by_kind, normalized_by_default.
  destruct (Z.eqb_spec kind ERC721) as [->|H721];
    [|destruct (Z.eqb_spec kind ERC721X) as [->|H721X]];
    destruct rawId as [id|], rawAmount as [n|]; cbn; intros Hrun;
    try discriminate; injection Hrun as <- <- <-;
    (split; [|try done; eauto 6]);
    (split; [try done; eauto 6|]);
    (split; [try done; eauto 8|]);
    try done; try (intros [?|?]; congruence); eauto 6.
Qed.

(** *** When the decoders succeed *)

Lemma address_decodes_iff (field : option AddressPB) :
  address_decodes field <->
  exists a, non_null field ≫= Address_UnmarshalPB = Ok a.
Proof.
  unfold address_decodes. split.
  - intros (pb & a & -> & Ha). by exists a.
  - intros (a & Ha). destruct field as [pb|]; [|discriminate]. by exists pb, a.
Qed.

Lemma signatures_split_iff (raw : list bytes) :
  signatures_split raw <->
  exists sigs, map_throwing splitSignature raw = Ok sigs.
Proof.
  unfold signatures_split. split.
  - induction 1 as [|rawSig raw [sig Hsig] _ [sigs Hsigs]].
    + by exists [].
    + exists (sig :: sigs). cbn. by rewrite Hsig, Hsigs.
  - intros [sigs Hsigs%map_throwing_Forall2].
    induction Hsigs; constructor; eauto.
Qed.

(** An entry that does not split aborts the mapping with its exception,
    once the entries before it have split. *)
Lemma map_throwing_first_failure {A B : Type} (f : A -> result B)
  (good : list A) (bad : A) (rest : list A) (v : any) :
  Forall (fun x => exists y, f x = Ok y) good ->
  f bad = Throw v ->
  map_throwing f (good ++ bad :: rest) = Throw v.
Proof.
  intros Hgood Hbad. induction Hgood as [|x good [y Hy] _ IH]; cbn.
  - by rewrite Hbad.
  - by rewrite Hy, IH.
Qed.

(** The switch of both decoders succeeds exactly on the raw fields its
    kind reads, and dereferences [undefined] otherwise. *)
Lemma switch_outcome (kind : Z) (rawId rawAmount : option BigUIntPB) :
  let switch :=
    if kind =? ERC721 then
      tokenId ← unmarshalBigUIntPB <$> non_null rawId;
      Ok (Some tokenId, None, tokenId)
    else
      tokenId ←
        (if kind =? ERC721X then
           tokenId ← unmarshalBigUIntPB <$> non_null rawId;
           Ok (Some tokenId)
         else Ok None);
      tokenAmount ← unmarshalBigUIntPB <$> non_null rawAmount;
      Ok (tokenId, Some tokenAmount, tokenAmount) in
  (token_fields_present kind rawId rawAmount /\ exists t, switch = Ok t) \/
  (~ token_fields_present kind rawId rawAmount /\
   switch = Throw undefined_dereferenced).
Proof.
  destruct kinds_apart as (Hx & _).
  unfold token_fields_present. cbn.
  destruct (Z.eqb_spec kind ERC721) as [->|H721];
    [|destruct (Z.eqb_spec kind ERC721X) as [->|H721X]];
    destruct rawId as [id|], rawAmount as [n|]; cbn;
    first
      [ left; split; [split; intros; eauto; tauto | by eexists]
      | right; split; [|done]; intros [Hid Hamount];
        exfalso; eapply is_Some_None;
        first [ apply Hid; auto; fail | apply Hamount; auto; fail ] ].
Qed.

(** Reduce a decoder to its binds, with the outcome of the switch at
    hand as [Hsw]. *)
Ltac open_decoder kind rawId rawAmount :=
  cbv zeta;
  let Hsw := fresh "Hsw" in
  pose proof (switch_outcome kind rawId rawAmount) as Hsw;
  cbv zeta in Hsw.

(** [new BN] on a nonce in range is the nonce, and its assertion fails
    on any other. *)
Lemma new_BN_outcome (nonce : Z) :
  (nonce_in_range nonce /\ new_BN nonce = Ok nonce) \/
  (~ nonce_in_range nonce /\ exists v, new_BN nonce = Throw v).
Proof.
  unfold new_BN, nonce_in_range.
  destruct (Z.ltb_spec (Z.abs nonce) (2 ^ 53)); [by left | right].
  split; [lia | by eexists].
Qed.

(** *** What a successful decoding says about its input *)

Lemma withdrawalReceipt_of_inv (receipt : WithdrawalReceiptPB.t)
  (n : IWithdrawalReceipt.t) :
  withdrawalReceipt_of receipt = Ok n ->
  let kind := WithdrawalReceiptPB.getTokenKind receipt in
  let rawId := WithdrawalReceiptPB.getTokenId receipt in
  let rawAmount := WithdrawalReceiptPB.getTokenAmount receipt in
  normalized_by_kind kind rawId rawAmount (IWithdrawalReceipt.tokenId n)
    (IWithdrawalReceipt.tokenAmount n) (IWithdrawalReceipt.value n) /\
  (kind <> ERC721 -> kind <> ERC721X ->
   normalized_by_default rawAmount (IWithdrawalReceipt.tokenId n)
     (IWithdrawalReceipt.tokenAmount n) (IWithdrawalReceipt.value n)) /\
  map_throwing splitSignature
    (WithdrawalReceiptPB.getValidatorSignaturesList receipt) =
  Ok (IWithdrawalReceipt.sigs n) /\
  IWithdrawalReceipt.tokenKind n = kind.
Proof.
  unfold withdrawalReceipt_of. intros Hrun.
  apply bind_Ok_inv in Hrun as ([[tid tam] val] & Hsw & Hrun).
  apply switch_cases in Hsw as [Hkind Hdefault].
  apply bind_Ok_inv in Hrun as (owner & _ & Hrun).
  apply bind_Ok_inv in Hrun as (contract & _ & Hrun).
  apply bind_Ok_inv in Hrun as (nonce & _ & Hrun).
  apply bind_Ok_inv in Hrun as (sigs & Hsigs & Hrun).
  injection Hrun as <-. by cbn.
Qed.

Lemma tokenWithdrawalEventArgs_inv (eventData : TokenWithdrawalSigned.t)
  (args : ITokenWithdrawalEventArgs.t) :
  tokenWithdrawalEventArgs eventData = Ok args ->
  let kind := TokenWithdrawalSigned.getTokenKind eventData in
  let rawId := TokenWithdrawalSigned.getTokenId eventData in
  let rawAmount := TokenWithdrawalSigned.getTokenAmount eventData in
  normalized_by_kind kind rawId rawAmount
    (ITokenWithdrawalEventArgs.tokenId args)
    (ITokenWithdrawalEventArgs.tokenAmount args)
    (ITokenWithdrawalEventArgs.value args) /\
  (kind <> ERC721 -> kind <> ERC721X ->
   normalized_by_default rawAmount (ITokenWithdrawalEventArgs.tokenId args)
     (ITokenWithdrawalEventArgs.tokenAmount args)
     (ITokenWithdrawalEventArgs.value args)) /\
  map_throwing splitSignature
    (TokenWithdrawalSigned.getValidatorSignaturesList eventData) =
  Ok (ITokenWithdrawalEventArgs.sigs args) /\
  ITokenWithdrawalEventArgs.tokenKind args = kind.
Proof.
  unfold tokenWithdrawalEventArgs. intros Hrun.
  apply bind_Ok_inv in Hrun as ([[tid tam] val] & Hsw & Hrun).
  apply switch_cases in Hsw as [Hkind Hdefault].
  apply bind_Ok_inv in Hrun as (owner & _ & Hrun).
  apply bind_Ok_inv in Hrun as (contract & _ & Hrun).
  apply bind_Ok_inv in Hrun as (sigs & Hsigs & Hrun).
  injection Hrun as <-. by cbn.
Qed.

(** A decoded receipt is the normalized form of the raw one. *)
Lemma withdrawalReceipt_of_normalizes (receipt : WithdrawalReceiptPB.t)
  (n : IWithdrawalReceipt.t) :
  withdrawalReceipt_of receipt = Ok n -> normalizes receipt n.
Proof.
  unfold withdrawalReceipt_of, normalizes. intros Hrun.
  apply bind_Ok_inv in Hrun as ([[tid tam] val] & Hsw & Hrun).
  apply switch_cases in Hsw as [Hkind Hdefault].
  apply bind_Ok_inv in Hrun as (owner & Howner & Hrun).
  apply bind_Ok_inv in Hrun as (contract & Hcontract & Hrun).
  apply bind_Ok_inv in Hrun as (nonce & Hnonce & Hrun).
  apply bind_Ok_inv in Hrun as (sigs & Hsigs%map_throwing_Forall2 & Hrun).
  injection Hrun as <-. cbn.
  destruct (WithdrawalReceiptPB.getTokenOwner receipt) as [o|];
    [|discriminate].
  destruct (WithdrawalReceiptPB.getTokenContract receipt) as [c|];
    [|discriminate].
  destruct (new_BN_outcome (WithdrawalReceiptPB.getWithdrawalNonce receipt))
    as [[_ Hbn] | [_ [v Hbn]]]; rewrite Hbn in Hnonce; [|discriminate].
  injection Hnonce as <-. split_and!; eauto.
Qed.

(** A receipt decodes when it is decodable, and its decoding throws when
    it is not. *)
Lemma withdrawalReceipt_of_decides (receipt : WithdrawalReceiptPB.t) :
  (receipt_decodable receipt /\
   exists n, withdrawalReceipt_of receipt = Ok n) \/
  (~ receipt_decodable receipt /\
   exists v, withdrawalReceipt_of receipt = Throw v).
Proof.
  unfold receipt_decodable, withdrawalReceipt_of.
  rewrite !address_decodes_iff, signatures_split_iff.
  open_decoder (WithdrawalReceiptPB.getTokenKind receipt)
    (WithdrawalReceiptPB.getTokenId receipt)
    (WithdrawalReceiptPB.getTokenAmount receipt).
  destruct Hsw as [[Hp [[[tid tam] val] ->]] | [Hn ->]];
    [|right; split; [by intros [? _] | by eexists]].
  destruct (non_null (WithdrawalReceiptPB.getTokenOwner receipt) ≫= _)
    as [o|]; cbn;
    [|right; split; [by intros (_ & [? [=]] & _) | by eexists]].
  destruct (non_null (WithdrawalReceiptPB.getTokenContract receipt) ≫= _)
    as [c|]; cbn;
    [|right; split; [by intros (_ & _ & [? [=]] & _) | by eexists]].
  destruct (new_BN_outcome (WithdrawalReceiptPB.getWithdrawalNonce receipt))
    as [[Hin ->] | [Hout [v ->]]]; cbn;
    [|right; split; [by intros (_ & _ & _ & ? & _) | by eexists]].
  destruct (map_throwing splitSignature _) as [sigs|]; cbn;
    [|right; split; [by intros (_ & _ & _ & _ & [? [=]]) | by eexists]].
  left. split; [|by eexists]. split_and!; eauto.
Qed.

(** C3. A receipt or signed-withdrawal event that decodes is normalized by
    its token kind. ERC721: the identifier is unmarshalled, the value equals
    it, the amount stays absent, and the raw amount is not looked at.
    ERC721X: identifier and amount are unmarshalled and the value equals the
    amount. ERC20 and ETH: the amount is unmarshalled, the value equals it,
    the identifier stays absent, and the raw identifier is not looked at. *)
Theorem decoders_follow_token_kind :
  (forall receipt n,
     withdrawalReceipt_of receipt = Ok n ->
     normalized_by_kind (WithdrawalReceiptPB.getTokenKind receipt)
       (WithdrawalReceiptPB.getTokenId receipt)
       (WithdrawalReceiptPB.getTokenAmount receipt)
       (IWithdrawalReceipt.tokenId n) (IWithdrawalReceipt.tokenAmount n)
       (IWithdrawalReceipt.value n)) /\
  (forall eventData args,
     tokenWithdrawalEventArgs eventData = Ok args ->
     normalized_by_kind (TokenWithdrawalSigned.getTokenKind eventData)
       (TokenWithdrawalSigned.getTokenId eventData)
       (TokenWithdrawalSigned.getTokenAmount eventData)
       (ITokenWithdrawalEventArgs.tokenId args)
       (ITokenWithdrawalEventArgs.tokenAmount args)
       (ITokenWithdrawalEventArgs.value args)) /\
  (forall owner contract id amount amount' nonce sigs,
     withdrawalReceipt_of
       (WithdrawalReceiptPB.mk owner contract ERC721 id amount nonce sigs) =
     withdrawalReceipt_of
       (WithdrawalReceiptPB.mk owner contract ERC721 id amount' nonce sigs)) /\
  (forall owner contract id amount amount' sigs,
     tokenWithdrawalEventArgs
       (TokenWithdrawalSigned.mk owner contract ERC721 id amount sigs) =
     tokenWithdrawalEventArgs
       (TokenWithdrawalSigned.mk owner contract ERC721 id amount' sigs)) /\
  (forall kind owner contract id id' amount nonce sigs,
     kind = ERC20 \/ kind = ETH ->
     withdrawalReceipt_of
       (WithdrawalReceiptPB.mk owner contract kind id amount nonce sigs) =
     withdrawalReceipt_of
       (WithdrawalReceiptPB.mk owner contract kind id' amount nonce sigs)) /\
  (forall kind owner contract id id' amount sigs,
     kind = ERC20 \/ kind = ETH ->
     tokenWithdrawalEventArgs
       (TokenWithdrawalSigned.mk owner contract kind id amount sigs) =
     tokenWithdrawalEventArgs
       (TokenWithdrawalSigned.mk owner contract kind id' amount sigs)).
Proof.
  split_and!.
  - intros receipt n Hrun. by apply withdrawalReceipt_of_inv in Hrun as [? _].
  - intros eventData args Hrun.
    by apply tokenWithdrawalEventArgs_inv in Hrun as [? _].
  - intros. unfold withdrawalReceipt_of. cbn. by rewrite Z.eqb_refl.
  - intros. unfold tokenWithdrawalEventArgs. cbn. by rewrite Z.eqb_refl.
  - intros kind owner contract id id' amount nonce sigs Hkind.
    unfold withdrawalReceipt_of. cbn.
    destruct (amount_kinds_skip_cases kind Hkind) as [-> ->]. done.
  - intros kind owner contract id id' amount sigs Hkind.
    unfold tokenWithdrawalEventArgs. cbn.
    destruct (amount_kinds_skip_cases kind Hkind) as [-> ->]. done.
Qed.

(** C10. A token kind other than ERC721 and ERC721X, known or not, takes
    the default branch in both decoders: the identifier stays unset, amount
    and value both come from the raw amount field, and the message is not
    rejected for its kind: it decodes whenever its amount, owner, contract
    and signatures do and, for a receipt, the withdrawal nonce is one that
    [new BN] accepts (of magnitude below [2^53]). *)
Theorem other_kinds_take_default_branch :
  (forall receipt n,
     WithdrawalReceiptPB.getTokenKind receipt <> ERC721 ->
     WithdrawalReceiptPB.getTokenKind receipt <> ERC721X ->
     withdrawalReceipt_of receipt = Ok n ->
     normalized_by_default (WithdrawalReceiptPB.getTokenAmount receipt)
       (IWithdrawalReceipt.tokenId n) (IWithdrawalReceipt.tokenAmount n)
       (IWithdrawalReceipt.value n)) /\
  (forall eventData args,
     TokenWithdrawalSigned.getTokenKind eventData <> ERC721 ->
     TokenWithdrawalSigned.getTokenKind eventData <> ERC721X ->
     tokenWithdrawalEventArgs eventData = Ok args ->
     normalized_by_default (TokenWithdrawalSigned.getTokenAmount eventData)
       (ITokenWithdrawalEventArgs.tokenId args)
       (ITokenWithdrawalEventArgs.tokenAmount args)
       (ITokenWithdrawalEventArgs.value args)) /\
  (forall receipt amount owner contract sigs,
     WithdrawalReceiptPB.getTokenKind receipt <> ERC721 ->
     WithdrawalReceiptPB.getTokenKind receipt <> ERC721X ->
     WithdrawalReceiptPB.getTokenAmount receipt = Some amount ->
     non_null (WithdrawalReceiptPB.getTokenOwner receipt)
       ≫= Address_UnmarshalPB = Ok owner ->
     non_null (WithdrawalReceiptPB.getTokenContract receipt)
       ≫= Address_UnmarshalPB = Ok contract ->
     nonce_in_range (WithdrawalReceiptPB.getWithdrawalNonce receipt) ->
     map_throwing splitSignature
       (WithdrawalReceiptPB.getValidatorSignaturesList receipt) = Ok sigs ->
     withdrawalReceipt_of receipt =
     Ok (IWithdrawalReceipt.mk owner contract
           (WithdrawalReceiptPB.getTokenKind receipt) None
           (Some (unmarshalBigUIntPB amount))
           (WithdrawalReceiptPB.getWithdrawalNonce receipt)
           (unmarshalBigUIntPB amount) sigs)) /\
  (forall eventData amount owner contract sigs,
     TokenWithdrawalSigned.getTokenKind eventData <> ERC721 ->
     TokenWithdrawalSigned.getTokenKind eventData <> ERC721X ->
     TokenWithdrawalSigned.getTokenAmount eventData = Some amount ->
     non_null (TokenWithdrawalSigned.getTokenOwner eventData)
       ≫= Address_UnmarshalPB = Ok owner ->
     non_null (TokenWithdrawalSigned.getTokenContract eventData)
       ≫= Address_UnmarshalPB = Ok contract ->
     map_throwing splitSignature
       (TokenWithdrawalSigned.getValidatorSignaturesList eventData) =
     Ok sigs ->
     tokenWithdrawalEventArgs eventData =
     Ok (ITokenWithdrawalEventArgs.mk owner contract
           (TokenWithdrawalSigned.getTokenKind eventData) None
           (Some (unmarshalBigUIntPB amount)) sigs
           (unmarshalBigUIntPB amount))).
Proof.
  split_and!.
  - intros receipt n H721 H721X Hrun.
    apply withdrawalReceipt_of_inv in Hrun as (_ & Hdefault & _). auto.
  - intros eventData args H721 H721X Hrun.
    apply tokenWithdrawalEventArgs_inv in Hrun as (_ & Hdefault & _). auto.
  - intros receipt amount owner contract sigs
      H721%Z.eqb_neq H721X%Z.eqb_neq Hamount Howner Hcontract Hnonce Hsigs.
    unfold withdrawalReceipt_of.
    destruct (new_BN_outcome (WithdrawalReceiptPB.getWithdrawalNonce receipt))
      as [[_ Hbn] | [Hout _]]; [|done].
    by rewrite H721, H721X, Hamount, Howner, Hcontract, Hbn, Hsigs.
  - intros eventData amount owner contract sigs
      H721%Z.eqb_neq H721X%Z.eqb_neq Hamount Howner Hcontract Hsigs.
    unfold tokenWithdrawalEventArgs.
    by rewrite H721, H721X, Hamount, Howner, Hcontract, Hsigs.
Qed.

(** C6. In a decoded receipt or signed-withdrawal event the signature list
    is the raw list entry by entry: equally long, and at each position the
    split form of the raw signature found at that position. *)
Theorem signatures_keep_order :
  (forall receipt n,
     withdrawalReceipt_of receipt = Ok n ->
     let raw := WithdrawalReceiptPB.getValidatorSignaturesList receipt in
     length (IWithdrawalReceipt.sigs n) = length raw /\
     Forall2 (fun rawSig sig => splitSignature rawSig = Ok sig) raw
       (IWithdrawalReceipt.sigs n) /\
     (forall (i : nat) rawSig,
        raw !! i = Some rawSig ->
        exists sig,
          IWithdrawalReceipt.sigs n !! i = Some sig /\
          splitSignature rawSig = Ok sig)) /\
  (forall eventData args,
     tokenWithdrawalEventArgs eventData = Ok args ->
     let raw := TokenWithdrawalSigned.getValidatorSignaturesList eventData in
     length (ITokenWithdrawalEventArgs.sigs args) = length raw /\
     Forall2 (fun rawSig sig => splitSignature rawSig = Ok sig) raw
       (ITokenWithdrawalEventArgs.sigs args) /\
     (forall (i : nat) rawSig,
        raw !! i = Some rawSig ->
        exists sig,
          ITokenWithdrawalEventArgs.sigs args !! i = Some sig /\
          splitSignature rawSig = Ok sig)).
Proof.
  split.
  - intros receipt n Hrun raw.
    apply withdrawalReceipt_of_inv in Hrun as (_ & _ & Hsigs & _).
    split_and!.
    + by eapply map_throwing_length.
    + by apply map_throwing_Forall2.
    + intros i rawSig Hi. by eapply map_throwing_lookup.
  - intros eventData args Hrun raw.
    apply tokenWithdrawalEventArgs_inv in Hrun as (_ & _ & Hsigs & _).
    split_and!.
    + by eapply map_throwing_length.
    + by apply map_throwing_Forall2.
    + intros i rawSig Hi. by eapply map_throwing_lookup.
Qed.

End Decoding.

(** A non-fungible receipt with identifier 7 and a semi-fungible event with
    identifier 3 and amount 500. *)
Lemma decoders_follow_token_kind_witness :
  (exists n,
     withdrawalReceipt_of Sample.receipt_erc721 = Ok n /\
     IWithdrawalReceipt.tokenId n = Some 7 /\
     IWithdrawalReceipt.tokenAmount n = None /\
     IWithdrawalReceipt.value n = 7) /\
  (exists args,
     tokenWithdrawalEventArgs Sample.event_erc721x = Ok args /\
     ITokenWithdrawalEventArgs.tokenId args = Some 3 /\
     ITokenWithdrawalEventArgs.tokenAmount args = Some 500 /\
     ITokenWithdrawalEventArgs.value args = 500).
Proof.
  destruct (@decoders_follow_token_kind Sample.imports) as (Hr & He & _).
  split.
  - eexists. split; [reflexivity|].
    destruct (Hr Sample.receipt_erc721 _ eq_refl) as (H721 & _ & _).
    destruct (H721 eq_refl) as (id & [= <-] & -> & -> & ->). done.
  - eexists. split; [reflexivity|].
    destruct (He Sample.event_erc721x _ eq_refl) as (_ & H721X & _).
    destruct (H721X eq_refl) as (id & n & [= <-] & [= <-] & -> & -> & ->).
    done.
Defined.

(** A receipt of kind 9 decodes through the default branch. *)
Lemma other_kinds_take_default_branch_witness :
  exists n,
    withdrawalReceipt_of Sample.receipt_unknown_kind = Ok n /\
    IWithdrawalReceipt.tokenId n = None /\
    IWithdrawalReceipt.tokenAmount n = Some 1000 /\
    IWithdrawalReceipt.value n = 1000.
Proof.
  destruct (@other_kinds_take_default_branch Sample.imports)
    as (_ & _ & Hr & _).
  eexists. split.
  - apply (Hr Sample.receipt_unknown_kind 1000 "owner" "contract");
      by vm_compute.
  - done.
Defined.

(** The three signatures of the sample receipt come out in their order. *)
Lemma signatures_keep_order_witness :
  exists n,
    withdrawalReceipt_of Sample.receipt_erc721 = Ok n /\
    length (IWithdrawalReceipt.sigs n) = 3%nat /\
    Sample.v <$> IWithdrawalReceipt.sigs n =
    [Byte.x01; Byte.x02; Byte.x03].
Proof.
  destruct (@signatures_keep_order Sample.imports) as (Hr & _).
  eexists. split; [reflexivity|].
  destruct (Hr Sample.receipt_erc721 _ eq_refl) as (Hlen & _ & _).
  split; [exact Hlen | reflexivity].
Defined.

(** *** The receipt query *)

Section Operations.

Context `{Imports}.


(** *** Withdrawal requests *)

(** C7. A native-coin withdrawal hands the transport a request with the
    amount and the mainnet gateway address set, the recipient set exactly
    when one was given, and no token-contract field. With the recipient
    omitted, each of the four operations submits a request without a
    recipient field. *)
Theorem withdrawal_requests_carry_fields :
  (forall amount ethereumGateway recipient,
     exists req,
       (forall this,
          withdrawETHAsync this amount ethereumGateway recipient =
          callAsync this "WithdrawETH" req) /\
       fields req !! "amount" = Some (FBigUInt (marshalBigUIntPB amount)) /\
       fields req !! "mainnetGateway" =
       Some (FAddress (Address_MarshalPB ethereumGateway)) /\
       fields req !! "tokenContract" = None /\
       fields req !! "recipient" =
       (fun r => FAddress (Address_MarshalPB r)) <$> recipient) /\
  (forall tokenId tokenContract,
     exists req,
       (forall this,
          withdrawERC721Async this tokenId tokenContract None =
          callAsync this "WithdrawToken" req) /\
       fields req !! "recipient" = None) /\
  (forall tokenId amount tokenContract,
     exists req,
       (forall this,
          withdrawERC721XAsync this tokenId amount tokenContract None =
          callAsync this "WithdrawToken" req) /\
       fields req !! "recipient" = None) /\
  (forall amount tokenContract,
     exists req,
       (forall this,
          withdrawERC20Async this amount tokenContract None =
          callAsync this "WithdrawToken" req) /\
       fields req !! "recipient" = None).
Proof.
  split_and!.
  - intros amount ethereumGateway recipient. eexists. split.
    + intros this. unfold withdrawETHAsync. reflexivity.
    + destruct recipient; cbn; by simplify_map_eq.
  - intros. eexists. split; [intros this; reflexivity|].
    cbn. by simplify_map_eq.
  - intros. eexists. split; [intros this; reflexivity|].
    cbn. by simplify_map_eq.
  - intros. eexists. split; [intros this; reflexivity|].
    cbn. by simplify_map_eq.
Qed.

(** X17. No construction operation validates or
    rejects anything: on every input it submits one request to the
    transport, and its outcome is the transport's. The request carries the
    fields of the operation's own token kind, and the recipient when given;
    the operation has no parameter through which another field could be
    supplied. *)
Theorem withdrawals_always_submit :
  (forall tokenId tokenContract recipient,
     exists req,
       (forall this,
          withdrawERC721Async this tokenId tokenContract recipient =
          callAsync this "WithdrawToken" req) /\
       dom (fields req) =
       fields_of_kind NonFungible ∪ recipient_field recipient) /\
  (forall tokenId amount tokenContract recipient,
     exists req,
       (forall this,
          withdrawERC721XAsync this tokenId amount tokenContract recipient =
          callAsync this "WithdrawToken" req) /\
       dom (fields req) =
       fields_of_kind SemiFungible ∪ recipient_field recipient) /\
  (forall amount tokenContract recipient,
     exists req,
       (forall this,
          withdrawERC20Async this amount tokenContract recipient =
          callAsync this "WithdrawToken" req) /\
       dom (fields req) =
       fields_of_kind Fungible ∪ recipient_field recipient) /\
  (forall amount ethereumGateway recipient,
     exists req,
       (forall this,
          withdrawETHAsync this amount ethereumGateway recipient =
          callAsync this "WithdrawETH" req) /\
       dom (fields req) =
       fields_of_kind NativeCoin ∪ recipient_field recipient).
Proof.
  split_and!; intros;
    (eexists; split; [intros this; reflexivity|]);
    match goal with r : option Address |- _ => destruct r end;
    cbn; rewrite ?dom_insert_L, dom_empty_L; set_solver.
Qed.

(** *** The event handler *)

(** A run that starts by decoding starts with that action, whether the
    decoder accepts its input or not. *)
Lemma deserializeBinary_first {A B : Type} (message : string)
  (decoder : bytes -> result A) (input : bytes) (k : A -> traced B) :
  exists acts r,
    deserializeBinary message decoder input ≫= k =
    (Deserialize message input :: acts, r).
Proof.
  unfold deserializeBinary, mbind, traced_bind.
  destruct (decoder input) as [a|v]; [|by eexists _, _].
  destruct (k a) as [acts r]. by eexists _, _.
Qed.

(** C8. The handler decodes only when the first topic of the event is the
    token-withdrawal-signed topic or the contract-mapping-confirmed topic,
    and then it starts by decoding the base64 payload as the matching
    message. An event whose topics are missing or empty, or whose first
    topic is neither, runs to completion without any action: nothing is
    decoded, nothing is emitted, nothing is thrown. *)
Theorem events_dispatched_on_first_topic (this : Contract)
  (event : IChainEventArgs) :
  (forall message input,
     Deserialize message input ∈ (on_Contract_EVENT this event).1 ->
     exists topic0 rest,
       topics event = Some (topic0 :: rest) /\
       (topic0 = tokenWithdrawalSignedEventTopic \/
        topic0 = contractMappingConfirmedEventTopic)) /\
  (ignored event -> on_Contract_EVENT this event = ([], Ok tt)) /\
  (forall rest,
     topics event = Some (tokenWithdrawalSignedEventTopic :: rest) ->
     exists acts r,
       on_Contract_EVENT this event =
       (Deserialize "TransferGatewayTokenWithdrawalSigned"
          (B64ToUint8Array (data event)) :: acts, r)) /\
  (forall rest,
     topics event = Some (contractMappingConfirmedEventTopic :: rest) ->
     exists acts r,
       on_Contract_EVENT this event =
       (Deserialize "TransferGatewayContractMappingConfirmed"
          (B64ToUint8Array (data event)) :: acts, r)).
Proof.
  unfold on_Contract_EVENT, ignored.
  destruct (topics event) as [[|topic0 rest]|].
  - split_and!; [by intros ? ? ?%elem_of_nil | done | done | done].
  - destruct (String.eqb_spec topic0 tokenWithdrawalSignedEventTopic)
      as [->|Hw];
      [|destruct (String.eqb_spec topic0 contractMappingConfirmedEventTopic)
          as [->|Hm]].
    + split_and!.
      * intros _ _ _. eauto.
      * by intros [[=]|[[=]|(t & r & [= <- _] & Hne & _)]].
      * intros _ _. apply deserializeBinary_first.
      * by intros ? [=].
    + split_and!.
      * intros _ _ _. eauto.
      * by intros [[=]|[[=]|(t & r & [= <- _] & _ & Hne)]].
      * by intros ? [=].
      * intros _ _. apply deserializeBinary_first.
    + split_and!.
      * by intros ? ? ?%elem_of_nil.
      * done.
      * by intros ? [= -> _].
      * by intros ? [= -> _].
  - split_and!; [by intros ? ? ?%elem_of_nil | done | done | done].
Qed.

End Operations.



(** A native-coin withdrawal of 1000 without a recipient. *)
Lemma withdrawal_requests_carry_fields_witness :
  exists req,
    withdrawETHAsync (Sample.gateway None) 1000 "mainnet-gateway" None =
    callAsync (Sample.gateway None) "WithdrawETH" req /\
    fields req !! "amount" = Some (FBigUInt 1000) /\
    fields req !! "recipient" = None /\
    fields req !! "tokenContract" = None.
Proof.
  destruct (proj1 (@withdrawal_requests_carry_fields Sample.imports)
              1000 "mainnet-gateway" None)
    as (req & Hcall & Hamount & _ & Hcontract & Hrecipient).
  exists req. split_and!; [apply Hcall | done | done | done].
Defined.

(** A non-fungible withdrawal submits the fields of its kind. *)
Lemma withdrawals_always_submit_witness :
  exists req,
    withdrawERC721Async (Sample.gateway None) 7 "contract" None =
    callAsync (Sample.gateway None) "WithdrawToken" req /\
    dom (fields req) = {[ "tokenKind"; "tokenId"; "tokenContract" ]}.
Proof.
  destruct (proj1 (@withdrawals_always_submit Sample.imports)
              7 "contract" None) as (req & Hcall & Hdom).
  exists req. split; [apply Hcall|]. rewrite Hdom. cbn. set_solver.
Defined.

(** An event with no topics and an event whose first topic is foreign are
    dropped even by a gateway whose decoders would throw; a signed
    withdrawal is decoded first. *)
Lemma events_dispatched_on_first_topic_witness :
  on_Contract_EVENT Sample.gateway_without_decoders
    Sample.event_without_topics = ([], Ok tt) /\
  on_Contract_EVENT Sample.gateway_without_decoders
    Sample.event_other_topic = ([], Ok tt) /\
  exists acts r,
    on_Contract_EVENT (Sample.gateway None) Sample.event_withdrawal_signed =
    (Deserialize "TransferGatewayTokenWithdrawalSigned"
       (B64ToUint8Array "AAEC") :: acts, r).
Proof.
  split_and!.
  - apply (events_dispatched_on_first_topic Sample.gateway_without_decoders
             Sample.event_without_topics). by left.
  - apply (events_dispatched_on_first_topic Sample.gateway_without_decoders
             Sample.event_other_topic).
    right. right. by eexists _, _.
  - by apply (events_dispatched_on_first_topic (Sample.gateway None)
                Sample.event_withdrawal_signed) with (rest := []).
Defined.

End GatewayProperties.



(** ** Further properties of the nonce middleware *)

Module MiddlewareExtras.

Import NonceEthTxMiddleware Spec JsFacts MiddlewareProperties.

(** X1. [HandleResults] never alters a result set: whatever it returns is
    its argument, and interpreting the returned result set again returns it
    again. A result set that passed once passes every time. *)
Theorem HandleResults_returns_argument (results results' : ITxResults) :
  HandleResults results = Ok results' ->
  results' = results /\ HandleResults results' = Ok results'.
Proof.
  intros Hrun.
  destruct (HandleResults_cases results) as [[_ Hr] | [_ Hr]];
    rewrite Hr in Hrun; [discriminate|].
  injection Hrun as <-. by rewrite Hr.
Qed.

Lemma HandleResults_returns_argument_witness :
  HandleResults Sample.insufficient_balance = Ok Sample.insufficient_balance.
Proof.
  by apply (HandleResults_returns_argument Sample.insufficient_balance
              Sample.insufficient_balance).
Defined.

Section Handle.

Variable serializeBinary : NonceTx -> bytes.


End Handle.


End MiddlewareExtras.


(** ** Further properties of the transfer gateway binding *)

Module GatewayExtras.

Import TransferGateway Spec Conditions GatewayProperties.

Section Decoding.

Context `{Imports}.

(** Reduce a decoder to its binds, with the outcome of the switch at
    hand as [Hsw]. *)
Ltac open_decoder kind rawId rawAmount :=
  cbv zeta;
  let Hsw := fresh "Hsw" in
  pose proof (switch_outcome kind rawId rawAmount) as Hsw;
  cbv zeta in Hsw.

(** X3. A stored receipt or signed-withdrawal message decodes exactly when
    the token fields its kind reads are set, its owner and contract
    addresses are set and unmarshal, every validator signature splits and,
    for a receipt, the withdrawal nonce is one that [new BN] accepts (of
    magnitude below [2^53]); nothing else about the message can make
    decoding fail. *)
Theorem decoding_succeeds_iff :
  (forall receipt,
     (exists n, withdrawalReceipt_of receipt = Ok n) <->
     token_fields_present (WithdrawalReceiptPB.getTokenKind receipt)
       (WithdrawalReceiptPB.getTokenId receipt)
       (WithdrawalReceiptPB.getTokenAmount receipt) /\
     address_decodes (WithdrawalReceiptPB.getTokenOwner receipt) /\
     address_decodes (WithdrawalReceiptPB.getTokenContract receipt) /\
     nonce_in_range (WithdrawalReceiptPB.getWithdrawalNonce receipt) /\
     signatures_split
       (WithdrawalReceiptPB.getValidatorSignaturesList receipt)) /\
  (forall eventData,
     (exists args, tokenWithdrawalEventArgs eventData = Ok args) <->
     token_fields_present (TokenWithdrawalSigned.getTokenKind eventData)
       (TokenWithdrawalSigned.getTokenId eventData)
       (TokenWithdrawalSigned.getTokenAmount eventData) /\
     address_decodes (TokenWithdrawalSigned.getTokenOwner eventData) /\
     address_decodes (TokenWithdrawalSigned.getTokenContract eventData) /\
     signatures_split
       (TokenWithdrawalSigned.getValidatorSignaturesList eventData)).
Proof.
  split.
  - intros receipt.
    destruct (withdrawalReceipt_of_decides receipt)
      as [[Hyes Hn] | [Hno [v Hv]]].
    + by split.
    + split; [|done]. intros [n Hn]. congruence.
  - intros eventData. unfold tokenWithdrawalEventArgs.
    rewrite !address_decodes_iff, signatures_split_iff.
    open_decoder (TokenWithdrawalSigned.getTokenKind eventData)
      (TokenWithdrawalSigned.getTokenId eventData)
      (TokenWithdrawalSigned.getTokenAmount eventData).
    destruct Hsw as [[Hp [[[tid tam] val] ->]] | [Hn ->]].
    + destruct
        (non_null (TokenWithdrawalSigned.getTokenOwner eventData) ≫= _);
        destruct
          (non_null (TokenWithdrawalSigned.getTokenContract eventData) ≫= _);
        destruct (map_throwing _ _); cbn; split;
        try (intros [? [=]]); try (intros (_ & [? [=]] & [? [=]] & [? [=]]));
        eauto 10.
    + split; [by intros [? [=]] | by intros [? _]].
Qed.

(** X4. When a token field that the kind reads is not set, both decoders
    throw the [TypeError] of a dereferenced [undefined], whatever the rest
    of the message holds: the switch runs before any other field is read,
    and a field of the other sort is never used in its place. *)
Theorem missing_token_field_throws :
  (forall receipt,
     ~ token_fields_present (WithdrawalReceiptPB.getTokenKind receipt)
         (WithdrawalReceiptPB.getTokenId receipt)
         (WithdrawalReceiptPB.getTokenAmount receipt) ->
     withdrawalReceipt_of receipt = Throw undefined_dereferenced) /\
  (forall eventData,
     ~ token_fields_present (TokenWithdrawalSigned.getTokenKind eventData)
         (TokenWithdrawalSigned.getTokenId eventData)
         (TokenWithdrawalSigned.getTokenAmount eventData) ->
     tokenWithdrawalEventArgs eventData = Throw undefined_dereferenced).
Proof.
  split.
  - intros receipt Hmissing. unfold withdrawalReceipt_of.
    open_decoder (WithdrawalReceiptPB.getTokenKind receipt)
      (WithdrawalReceiptPB.getTokenId receipt)
      (WithdrawalReceiptPB.getTokenAmount receipt).
    by destruct Hsw as [[Hp _] | [_ ->]].
  - intros eventData Hmissing. unfold tokenWithdrawalEventArgs.
    open_decoder (TokenWithdrawalSigned.getTokenKind eventData)
      (TokenWithdrawalSigned.getTokenId eventData)
      (TokenWithdrawalSigned.getTokenAmount eventData).
    by destruct Hsw as [[Hp _] | [_ ->]].
Qed.

(** X5. When the token fields and both addresses of a message decode
    (and, for a receipt, [new BN] accepts the withdrawal nonce, which is
    read before the signatures) and a validator signature does not split,
    while all signatures before it in the list do, both decoders throw the
    exception of that signature: the first malformed signature in list
    order decides, and no partial result is returned. *)
Theorem first_malformed_signature_is_thrown :
  (forall receipt good bad rest v,
     token_fields_present (WithdrawalReceiptPB.getTokenKind receipt)
       (WithdrawalReceiptPB.getTokenId receipt)
       (WithdrawalReceiptPB.getTokenAmount receipt) ->
     address_decodes (WithdrawalReceiptPB.getTokenOwner receipt) ->
     address_decodes (WithdrawalReceiptPB.getTokenContract receipt) ->
     nonce_in_range (WithdrawalReceiptPB.getWithdrawalNonce receipt) ->
     WithdrawalReceiptPB.getValidatorSignaturesList receipt =
     good ++ bad :: rest ->
     signatures_split good ->
     splitSignature bad = Throw v ->
     withdrawalReceipt_of receipt = Throw v) /\
  (forall eventData good bad rest v,
     token_fields_present (TokenWithdrawalSigned.getTokenKind eventData)
       (TokenWithdrawalSigned.getTokenId eventData)
       (TokenWithdrawalSigned.getTokenAmount eventData) ->
     address_decodes (TokenWithdrawalSigned.getTokenOwner eventData) ->
     address_decodes (TokenWithdrawalSigned.getTokenContract eventData) ->
     TokenWithdrawalSigned.getValidatorSignaturesList eventData =
     good ++ bad :: rest ->
     signatures_split good ->
     splitSignature bad = Throw v ->
     tokenWithdrawalEventArgs eventData = Throw v).
Proof.
  split.
  - intros receipt good bad rest v Hp [o Ho]%address_decodes_iff
      [c Hc]%address_decodes_iff Hnonce Hsigs Hgood Hbad.
    unfold withdrawalReceipt_of.
    open_decoder (WithdrawalReceiptPB.getTokenKind receipt)
      (WithdrawalReceiptPB.getTokenId receipt)
      (WithdrawalReceiptPB.getTokenAmount receipt).
    destruct Hsw as [[_ [[[tid tam] val] ->]] | [Hn _]]; [|done].
    destruct (new_BN_outcome (WithdrawalReceiptPB.getWithdrawalNonce receipt))
      as [[_ Hbn] | [Hout _]]; [|done].
    rewrite Ho, Hc, Hbn, Hsigs. cbn.
    by rewrite (map_throwing_first_failure _ good bad rest v Hgood Hbad).
  - intros eventData good bad rest v Hp [o Ho]%address_decodes_iff
      [c Hc]%address_decodes_iff Hsigs Hgood Hbad.
    unfold tokenWithdrawalEventArgs.
    open_decoder (TokenWithdrawalSigned.getTokenKind eventData)
      (TokenWithdrawalSigned.getTokenId eventData)
      (TokenWithdrawalSigned.getTokenAmount eventData).
    destruct Hsw as [[_ [[[tid tam] val] ->]] | [Hn _]]; [|done].
    rewrite Ho, Hc, Hsigs. cbn.
    by rewrite (map_throwing_first_failure _ good bad rest v Hgood Hbad).
Qed.

(** X6. In every decoded receipt or event, of whatever token kind, the
    identifier is present exactly for ERC721 and ERC721X, the amount is
    present exactly for the kinds other than ERC721, and the legacy value is
    the identifier for ERC721 and the amount otherwise; so the value always
    repeats a field that is present. *)
Theorem value_repeats_present_field :
  (forall receipt n,
     withdrawalReceipt_of receipt = Ok n ->
     let kind := IWithdrawalReceipt.tokenKind n in
     (is_Some (IWithdrawalReceipt.tokenId n) <->
      kind = ERC721 \/ kind = ERC721X) /\
     (is_Some (IWithdrawalReceipt.tokenAmount n) <-> kind <> ERC721) /\
     Some (IWithdrawalReceipt.value n) =
     (if kind =? ERC721 then IWithdrawalReceipt.tokenId n
      else IWithdrawalReceipt.tokenAmount n)) /\
  (forall eventData args,
     tokenWithdrawalEventArgs eventData = Ok args ->
     let kind := ITokenWithdrawalEventArgs.tokenKind args in
     (is_Some (ITokenWithdrawalEventArgs.tokenId args) <->
      kind = ERC721 \/ kind = ERC721X) /\
     (is_Some (ITokenWithdrawalEventArgs.tokenAmount args) <->
      kind <> ERC721) /\
     Some (ITokenWithdrawalEventArgs.value args) =
     (if kind =? ERC721 then ITokenWithdrawalEventArgs.tokenId args
      else ITokenWithdrawalEventArgs.tokenAmount args)).
Proof.
  assert (Hshape : forall kind rawId rawAmount tokenId tokenAmount value,
            normalized_by_kind kind rawId rawAmount tokenId tokenAmount
              value ->
            (kind <> ERC721 -> kind <> ERC721X ->
             normalized_by_default rawAmount tokenId tokenAmount value) ->
            (is_Some tokenId <-> kind = ERC721 \/ kind = ERC721X) /\
            (is_Some tokenAmount <-> kind <> ERC721) /\
            Some value = (if kind =? ERC721 then tokenId else tokenAmount)).
  { intros kind rawId rawAmount tokenId tokenAmount value
      (H721 & H721X & _) Hdefault.
    destruct kinds_apart as (Hx & _).
    destruct (Z.eqb_spec kind ERC721) as [->|Hn721].
    - destruct (H721 eq_refl) as (id & _ & -> & -> & ->).
      split_and!; [split; eauto | | done].
      split; [by intros ?%is_Some_None | done].
    - destruct (decide (kind = ERC721X)) as [->|Hn721X].
      + destruct (H721X eq_refl) as (id & m & _ & _ & -> & -> & ->).
        split_and!; [split; eauto | split; eauto | done].
      + destruct (Hdefault Hn721 Hn721X) as (-> & m & _ & -> & ->).
        split_and!; [|split; eauto | done].
        split; [by intros ?%is_Some_None | by intros [?|?]]. }
  split.
  - intros receipt n Hrun kind.
    apply withdrawalReceipt_of_inv in Hrun as (Hkind & Hdefault & _ & Heq).
    subst kind. rewrite Heq. by eapply Hshape.
  - intros eventData args Hrun kind.
    apply tokenWithdrawalEventArgs_inv in Hrun
      as (Hkind & Hdefault & _ & Heq).
    subst kind. rewrite Heq. by eapply Hshape.
Qed.

(** X7. A decoded receipt keeps what it was given: its owner and its
    contract are the unmarshalled owner and contract fields of the raw
    receipt, each from its own field, and its token kind and withdrawal
    nonce are the raw ones unchanged. *)
Theorem decoded_receipt_keeps_identity (receipt : WithdrawalReceiptPB.t)
  (n : IWithdrawalReceipt.t) :
  withdrawalReceipt_of receipt = Ok n ->
  (exists owner,
     WithdrawalReceiptPB.getTokenOwner receipt = Some owner /\
     Address_UnmarshalPB owner = Ok (IWithdrawalReceipt.tokenOwner n)) /\
  (exists contract,
     WithdrawalReceiptPB.getTokenContract receipt = Some contract /\
     Address_UnmarshalPB contract = Ok (IWithdrawalReceipt.tokenContract n)) /\
  IWithdrawalReceipt.tokenKind n = WithdrawalReceiptPB.getTokenKind receipt /\
  IWithdrawalReceipt.withdrawalNonce n =
  WithdrawalReceiptPB.getWithdrawalNonce receipt.
Proof.
  intros Hrun.
  destruct (withdrawalReceipt_of_normalizes receipt n Hrun)
    as (Howner & Hcontract & Hkind & Hnonce & _).
  by split_and!.
Qed.

(** X8. The two copies of the decoding code agree: a signed-withdrawal
    message and a stored receipt with the same owner, contract, kind,
    identifier, amount and signatures decode to the same fields, and when
    one throws the other throws the same exception, as long as the
    receipt's withdrawal nonce is one that [new BN] accepts (of magnitude
    below [2^53]). *)
Theorem event_and_receipt_decoders_agree
  (owner contract : option AddressPB) (kind : Z)
  (id amount : option BigUIntPB) (nonce : Z) (sigs : list bytes) :
  nonce_in_range nonce ->
  tokenWithdrawalEventArgs
    (TokenWithdrawalSigned.mk owner contract kind id amount sigs) =
  event_args_of <$>
    withdrawalReceipt_of
      (WithdrawalReceiptPB.mk owner contract kind id amount nonce sigs).
Proof.
  intros Hnonce.
  destruct (new_BN_outcome nonce) as [[_ Hbn] | [Hout _]]; [|done].
  unfold tokenWithdrawalEventArgs, withdrawalReceipt_of. cbn. rewrite Hbn.
  destruct (kind =? ERC721), (kind =? ERC721X), id as [i|], amount as [a|];
    cbn; try done;
    (destruct owner as [o|]; cbn; [|done]);
    (destruct (Address_UnmarshalPB o); cbn; [|done]);
    (destruct contract as [c|]; cbn; [|done]);
    (destruct (Address_UnmarshalPB c); cbn; [|done]);
    by destruct (map_throwing splitSignature sigs).
Qed.

End Decoding.

(** The sample receipt and event decode. *)
Lemma decoding_succeeds_iff_witness :
  (exists n, withdrawalReceipt_of Sample.receipt_erc721 = Ok n) /\
  (exists args, tokenWithdrawalEventArgs Sample.event_erc721x = Ok args).
Proof.
  destruct (@decoding_succeeds_iff Sample.imports) as [Hr He].
  split.
  - apply (Hr Sample.receipt_erc721). split_and!.
    + split; [by eexists | by intros []].
    + by eexists _, _.
    + by eexists _, _.
    + by vm_compute.
    + repeat constructor; by eexists.
  - apply (He Sample.event_erc721x). split_and!.
    + split; [by eexists | by eexists].
    + by eexists _, _.
    + by eexists _, _.
    + repeat constructor; by eexists.
Defined.

(** The sample semi-fungible event and a receipt with the same fields and
    nonce 11 decode alike. *)
Lemma event_and_receipt_decoders_agree_witness :
  tokenWithdrawalEventArgs Sample.event_erc721x =
  event_args_of <$>
    withdrawalReceipt_of
      (WithdrawalReceiptPB.mk (Some "owner") (Some "contract") 3 (Some 3)
         (Some 500) 11 [Sample.sig_of Byte.x01; Sample.sig_of Byte.x02]).
Proof.
  apply (@event_and_receipt_decoders_agree Sample.imports (Some "owner")
           (Some "contract") 3 (Some 3) (Some 500) 11
           [Sample.sig_of Byte.x01; Sample.sig_of Byte.x02]).
  by vm_compute.
Defined.

(** A non-fungible receipt whose identifier is missing is not decoded from
    its amount. *)
Lemma missing_token_field_throws_witness :
  withdrawalReceipt_of
    (WithdrawalReceiptPB.mk (Some "owner") (Some "contract") 2 None (Some 7)
       5 []) = Throw undefined_dereferenced.
Proof.
  apply (proj1 (@missing_token_field_throws Sample.imports)).
  intros [Hid _]. by destruct (Hid (or_introl eq_refl)).
Defined.

(** The event whose second signature is too short throws that signature's
    exception. *)
Lemma first_malformed_signature_is_thrown_witness :
  tokenWithdrawalEventArgs Sample.event_bad_signature =
  Throw (VError (new_Error "invalid signature")).
Proof.
  apply (proj2 (@first_malformed_signature_is_thrown Sample.imports)
           Sample.event_bad_signature [Sample.sig_of Byte.x01] [Byte.x02]
           [Sample.sig_of Byte.x03]).
  - split; [by intros [[=]|[=]] | by eexists].
  - by eexists _, _.
  - by eexists _, _.
  - reflexivity.
  - repeat constructor. by eexists.
  - reflexivity.
Defined.

(** The sample receipt is non-fungible: identifier and value 7, no amount. *)
Lemma value_repeats_present_field_witness :
  exists n,
    withdrawalReceipt_of Sample.receipt_erc721 = Ok n /\
    is_Some (IWithdrawalReceipt.tokenId n) /\
    Some (IWithdrawalReceipt.value n) = IWithdrawalReceipt.tokenId n.
Proof.
  eexists. split; [reflexivity|].
  destruct (proj1 (@value_repeats_present_field Sample.imports)
              Sample.receipt_erc721 _ eq_refl) as (Hid & _ & Hvalue).
  split; [apply Hid; by left | exact Hvalue].
Defined.

(** The sample receipt keeps its nonce 5 and its kind 2. *)
Lemma decoded_receipt_keeps_identity_witness :
  exists n,
    withdrawalReceipt_of Sample.receipt_erc721 = Ok n /\
    IWithdrawalReceipt.tokenKind n = 2 /\
    IWithdrawalReceipt.withdrawalNonce n = 5.
Proof.
  eexists. split; [reflexivity|].
  destruct (decoded_receipt_keeps_identity Sample.receipt_erc721 _ eq_refl)
    as (_ & _ & Hkind & Hnonce).
  by split.
Defined.

Section Operations.

Context `{Imports}.

(** *** The event handler *)

(** X9. Every run of the event handler has one of three shapes: no action
    at all; one decoding that ends in an exception; or one decoding
    followed by one emission, after which the run completes as the
    listeners of the emitted event do. So the handler never emits without a
    successful decoding before it, never emits twice, and does nothing of
    its own after the emission. *)
Theorem handler_runs_have_three_shapes (this : Contract)
  (event : IChainEventArgs) :
  HandlerRun this (on_Contract_EVENT this event).
Proof.
  unfold on_Contract_EVENT.
  destruct (topics event) as [[|topic0 rest]|]; try constructor.
  destruct (String.eqb topic0 tokenWithdrawalSignedEventTopic).
  - unfold deserializeBinary, lift, emit, mbind, traced_bind.
    destruct (TokenWithdrawalSigned_deserializeBinary this _) as [msg|v];
      [|constructor].
    destruct (tokenWithdrawalEventArgs msg); constructor.
  - destruct (String.eqb topic0 contractMappingConfirmedEventTopic);
      [|constructor].
    unfold deserializeBinary, lift, emit, mbind, traced_bind.
    destruct (ContractMappingConfirmed_deserializeBinary this _) as [msg|v];
      [|constructor].
    destruct (contractMappingConfirmedEventArgs msg); constructor.
Qed.

(** X10. On an event whose first topic is the token-withdrawal-signed
    topic, whatever topics follow, the handler decodes the base64 payload
    once; when the message decodes and normalizes to [args] it emits
    'event_token_withdrawal' with exactly [args] and completes as the
    listeners of that event do, and otherwise it throws the decoder's or the
    normalization's exception and emits nothing. *)
Theorem token_withdrawal_event_run (this : Contract)
  (event : IChainEventArgs) (rest : list string) :
  topics event = Some (tokenWithdrawalSignedEventTopic :: rest) ->
  let input := B64ToUint8Array (data event) in
  let decoding := Deserialize "TransferGatewayTokenWithdrawalSigned" input in
  on_Contract_EVENT this event =
  match
    TokenWithdrawalSigned_deserializeBinary this input
      ≫= tokenWithdrawalEventArgs
  with
  | Ok args =>
      ([decoding; Emit EVENT_TOKEN_WITHDRAWAL (TokenWithdrawal args)],
       listeners this EVENT_TOKEN_WITHDRAWAL (TokenWithdrawal args))
  | Throw v => ([decoding], Throw v)
  end.
Proof.
  intros Htopics. unfold on_Contract_EVENT. rewrite Htopics. cbn.
  destruct (TokenWithdrawalSigned_deserializeBinary this _) as [msg|v];
    cbn; [|done].
  by destruct (tokenWithdrawalEventArgs msg).
Qed.

(** X11. On an event whose first topic is the contract-mapping-confirmed
    topic the handler decodes the payload once and emits
    'event_contract_mapping_confirmed' when the message decodes, completing
    as the listeners of that event do, else throws and emits nothing. The
    emitted arguments exist exactly when both contract fields are set and
    unmarshal, and then the foreign contract comes from the foreign field
    and the local contract from the local field. *)
Theorem contract_mapping_event_run :
  (forall this event rest,
     topics event = Some (contractMappingConfirmedEventTopic :: rest) ->
     let input := B64ToUint8Array (data event) in
     let decoding :=
       Deserialize "TransferGatewayContractMappingConfirmed" input in
     on_Contract_EVENT this event =
     match
       ContractMappingConfirmed_deserializeBinary this input
         ≫= contractMappingConfirmedEventArgs
     with
     | Ok args =>
         ([decoding;
           Emit EVENT_CONTRACT_MAPPING_CONFIRMED (ContractMapping args)],
          listeners this EVENT_CONTRACT_MAPPING_CONFIRMED
            (ContractMapping args))
     | Throw v => ([decoding], Throw v)
     end) /\
  (forall message args,
     contractMappingConfirmedEventArgs message = Ok args <->
     exists foreign local,
       ContractMappingConfirmed.getForeignContract message = Some foreign /\
       ContractMappingConfirmed.getLocalContract message = Some local /\
       Address_UnmarshalPB foreign =
       Ok (IContractMappingConfirmedEventArgs.foreignContract args) /\
       Address_UnmarshalPB local =
       Ok (IContractMappingConfirmedEventArgs.localContract args)).
Proof.
  split.
  - intros this event rest Htopics.
    unfold on_Contract_EVENT. rewrite Htopics. cbn.
    destruct (ContractMappingConfirmed_deserializeBinary this _) as [msg|v];
      cbn; [|done].
    by destruct (contractMappingConfirmedEventArgs msg).
  - intros message args. unfold contractMappingConfirmedEventArgs.
    destruct (ContractMappingConfirmed.getForeignContract message) as [f|],
      (ContractMappingConfirmed.getLocalContract message) as [l|]; cbn.
    + destruct (Address_UnmarshalPB f) as [fa|] eqn:Hf; cbn;
        [destruct (Address_UnmarshalPB l) as [la|] eqn:Hl; cbn|].
      * split.
        -- intros [= <-]. by exists f, l.
        -- intros (f' & l' & [= <-] & [= <-] & Hf' & Hl').
           destruct args as [fa' la']. cbn in *. congruence.
      * split; [discriminate|].
        intros (f' & l' & [= <-] & [= <-] & _ & Hl'). congruence.
      * split; [discriminate|].
        intros (f' & l' & [= <-] & _ & Hf' & _). congruence.
    + destruct (Address_UnmarshalPB f); cbn;
        (split; [discriminate | by intros (? & ? & _ & [=] & _)]).
    + split; [discriminate | by intros (? & ? & [=] & _)].
    + split; [discriminate | by intros (? & ? & [=] & _)].
Qed.

(** *** The receipt query *)

(** X12. The receipt query fails in two cases only: the transport call
    fails, and the query fails with the transport's exception; or a receipt
    is stored but does not decode, and the query fails with the decoder's
    exception. *)
Theorem withdrawalReceiptAsync_failure (this : Contract) (owner : Address)
  (v : any) :
  let req :=
    set "owner" (FAddress (Address_MarshalPB owner))
      (new_Message "TransferGatewayWithdrawalReceiptRequest") in
  withdrawalReceiptAsync this owner = Throw v <->
  staticCallAsync this "WithdrawalReceipt" req = Throw v \/
  exists response receipt,
    staticCallAsync this "WithdrawalReceipt" req = Ok response /\
    WithdrawalReceiptResponse.getReceipt response = Some receipt /\
    withdrawalReceipt_of receipt = Throw v.
Proof.
  unfold withdrawalReceiptAsync. cbv zeta.
  destruct (staticCallAsync this _ _) as [response|w]; cbn.
  - destruct (WithdrawalReceiptResponse.getReceipt response)
      as [receipt|] eqn:Hreceipt.
    + destruct (withdrawalReceipt_of receipt) as [n|w] eqn:Hdecode; cbn.
      * split; [discriminate|].
        intros [[=] | (r & rc & [= <-] & Hrc & Hthrow)]. congruence.
      * split.
        -- intros [= <-]. right. by exists response, receipt.
        -- intros [[=] | (r & rc & [= <-] & Hrc & Hthrow)]. congruence.
    + split; [discriminate|].
      intros [[=] | (r & rc & [= <-] & Hrc & _)]. congruence.
  - split; [intros [= <-]; by left|].
    by intros [[= <-] | (r & rc & [=] & _)].
Qed.

(** *** Requests *)

(** X13. The three token withdrawals submit a 'WithdrawToken' call whose
    request holds the kind of the operation, the marshalled identifier
    and amount that the operation takes (and no identifier or amount that
    it does not take), the marshalled token contract, and the marshalled
    recipient exactly when one is given. *)
Theorem token_withdrawal_requests :
  (forall tokenId tokenContract recipient,
     exists req,
       (forall this,
          withdrawERC721Async this tokenId tokenContract recipient =
          callAsync this "WithdrawToken" req) /\
       messageType req = "TransferGatewayWithdrawTokenRequest" /\
       fields req !! "tokenKind" = Some (FEnum ERC721) /\
       fields req !! "tokenId" = Some (FBigUInt (marshalBigUIntPB tokenId)) /\
       fields req !! "tokenAmount" = None /\
       fields req !! "tokenContract" =
       Some (FAddress (Address_MarshalPB tokenContract)) /\
       fields req !! "recipient" =
       (fun r => FAddress (Address_MarshalPB r)) <$> recipient) /\
  (forall tokenId amount tokenContract recipient,
     exists req,
       (forall this,
          withdrawERC721XAsync this tokenId amount tokenContract recipient =
          callAsync this "WithdrawToken" req) /\
       messageType req = "TransferGatewayWithdrawTokenRequest" /\
       fields req !! "tokenKind" = Some (FEnum ERC721X) /\
       fields req !! "tokenId" = Some (FBigUInt (marshalBigUIntPB tokenId)) /\
       fields req !! "tokenAmount" =
       Some (FBigUInt (marshalBigUIntPB amount)) /\
       fields req !! "tokenContract" =
       Some (FAddress (Address_MarshalPB tokenContract)) /\
       fields req !! "recipient" =
       (fun r => FAddress (Address_MarshalPB r)) <$> recipient) /\
  (forall amount tokenContract recipient,
     exists req,
       (forall this,
          withdrawERC20Async this amount tokenContract recipient =
          callAsync this "WithdrawToken" req) /\
       messageType req = "TransferGatewayWithdrawTokenRequest" /\
       fields req !! "tokenKind" = Some (FEnum ERC20) /\
       fields req !! "tokenId" = None /\
       fields req !! "tokenAmount" =
       Some (FBigUInt (marshalBigUIntPB amount)) /\
       fields req !! "tokenContract" =
       Some (FAddress (Address_MarshalPB tokenContract)) /\
       fields req !! "recipient" =
       (fun r => FAddress (Address_MarshalPB r)) <$> recipient).
Proof.
  split_and!; intros;
    (eexists; split; [intros this; reflexivity|]);
    match goal with r : option Address |- _ => destruct r end;
    cbn; split_and!; by simplify_map_eq.
Qed.

(** X14. [createAsync] builds a gateway exactly when the client resolves
    the name 'gateway' to an address, and then the gateway has that address,
    the given caller and the given client. When the name resolves to [null]
    it throws [Error('Failed to resolve contract address for
    TransferGateway')]; when the lookup itself fails it throws the lookup's
    exception. *)
Theorem createAsync_outcome (client : GatewayClient) (callerAddr : Address) :
  (forall gateway,
     createAsync client callerAddr = Ok gateway <->
     exists contractAddr,
       getContractAddressAsync client "gateway" = Ok (Some contractAddr) /\
       gateway = mkGateway contractAddr callerAddr client) /\
  (getContractAddressAsync client "gateway" = Ok None ->
   createAsync client callerAddr =
   Throw (VError (new_Error
     "Failed to resolve contract address for TransferGateway"))) /\
  (forall v,
     getContractAddressAsync client "gateway" = Throw v ->
     createAsync client callerAddr = Throw v).
Proof.
  unfold createAsync.
  destruct (getContractAddressAsync client "gateway") as [[a|]|w]; cbn;
    split_and!; try done.
  - intros gateway. split.
    + intros [= <-]. by exists a.
    + by intros (a' & [= <-] & ->).
  - intros gateway. split; [discriminate | by intros (? & [=] & _)].
  - intros gateway. split; [discriminate | by intros (? & [=] & _)].
  - by intros v [= <-].
Qed.

(** X15. [reclaimDepositorTokensAsync] treats an empty list of depositors
    like an omitted one: both submit the empty request. A non-empty list
    submits a request whose only field is the depositors list, holding the
    marshalled addresses in the order given. *)
Theorem reclaimDepositorTokens_request :
  (forall this,
     reclaimDepositorTokensAsync this (Some []) =
     reclaimDepositorTokensAsync this None) /\
  (exists req,
     (forall this,
        reclaimDepositorTokensAsync this None =
        wide_callAsync this "ReclaimDepositorTokens" req) /\
     wideFields req = ∅) /\
  (forall depositor others,
     exists req,
       (forall this,
          reclaimDepositorTokensAsync this (Some (depositor :: others)) =
          wide_callAsync this "ReclaimDepositorTokens" req) /\
       dom (wideFields req) = {[ "depositorsList" ]} /\
       wideFields req !! "depositorsList" =
       Some (WAddressList
               (Address_MarshalPB depositor ::
                map Address_MarshalPB others))).
Proof.
  split_and!.
  - done.
  - eexists. split; [intros this; reflexivity | done].
  - intros depositor others. eexists.
    split; [intros this; reflexivity|]. cbn.
    split; [|by simplify_map_eq].
    rewrite dom_insert_L, dom_empty_L. set_solver.
Qed.

(** X16. [addContractMappingAsync] submits an 'AddContractMapping' call
    whose request has exactly four fields: the marshalled foreign and local
    contracts, each under its own name, and the creator's signature and
    transaction hash, byte for byte. [reclaimContractTokensAsync] submits a
    'ReclaimContractTokens' call whose request has the marshalled token
    contract as its only field. Neither fails on its own. *)
Theorem mapping_and_reclaim_requests :
  (forall params,
     exists req,
       (forall this,
          addContractMappingAsync this params =
          wide_callAsync this "AddContractMapping" req) /\
       dom (wideFields req) =
       {[ "foreignContract"; "localContract"; "foreignContractCreatorSig";
          "foreignContractTxHash" ]} /\
       wideFields req !! "foreignContract" =
       Some (WAddress (Address_MarshalPB (foreignContract params))) /\
       wideFields req !! "localContract" =
       Some (WAddress (Address_MarshalPB (localContract params))) /\
       wideFields req !! "foreignContractCreatorSig" =
       Some (WBytes (foreignContractCreatorSig params)) /\
       wideFields req !! "foreignContractTxHash" =
       Some (WBytes (foreignContractCreatorTxHash params))) /\
  (forall tokenContract,
     exists req,
       (forall this,
          reclaimContractTokensAsync this tokenContract =
          callAsync this "ReclaimContractTokens" req) /\
       dom (fields req) = {[ "tokenContract" ]} /\
       fields req !! "tokenContract" =
       Some (FAddress (Address_MarshalPB tokenContract))).
Proof.
  split.
  - intros params. eexists. split; [intros this; reflexivity|]. cbn.
    split_and!;
      first [ by simplify_map_eq
            | rewrite !dom_insert_L, dom_empty_L; set_solver ].
  - intros tokenContract. eexists.
    split; [intros this; reflexivity|]. cbn.
    split; [|by simplify_map_eq].
    rewrite dom_insert_L, dom_empty_L. set_solver.
Qed.

End Operations.

(** The sample gateway decodes the sample semi-fungible event and emits
    it; when the listener throws, the run ends in its exception after the
    emission. *)
Lemma token_withdrawal_event_run_witness :
  (exists args,
     on_Contract_EVENT (Sample.gateway None) Sample.event_withdrawal_signed =
     ([Deserialize "TransferGatewayTokenWithdrawalSigned"
         (B64ToUint8Array "AAEC");
       Emit EVENT_TOKEN_WITHDRAWAL (TokenWithdrawal args)], Ok tt) /\
     ITokenWithdrawalEventArgs.value args = 500) /\
  (exists args,
     on_Contract_EVENT Sample.gateway_with_failing_listener
       Sample.event_withdrawal_signed =
     ([Deserialize "TransferGatewayTokenWithdrawalSigned"
         (B64ToUint8Array "AAEC");
       Emit EVENT_TOKEN_WITHDRAWAL (TokenWithdrawal args)],
      Throw (VString "listener"))).
Proof.
  split.
  - eexists. split.
    + by rewrite (token_withdrawal_event_run (Sample.gateway None)
                    Sample.event_withdrawal_signed [] eq_refl).
    + reflexivity.
  - eexists.
    by rewrite (token_withdrawal_event_run
                  Sample.gateway_with_failing_listener
                  Sample.event_withdrawal_signed [] eq_refl).
Defined.

(** A confirmed mapping of "foreign" to "local" is emitted as such; with
    decoders that throw, nothing is emitted. *)
Lemma contract_mapping_event_run_witness :
  on_Contract_EVENT (Sample.gateway None)
    (mkEvent (Some ["event:ContractMappingConfirmed"]) "AAEC") =
  ([Deserialize "TransferGatewayContractMappingConfirmed"
      (B64ToUint8Array "AAEC");
    Emit EVENT_CONTRACT_MAPPING_CONFIRMED
      (ContractMapping
         (IContractMappingConfirmedEventArgs.mk "foreign" "local"))],
   Ok tt) /\
  on_Contract_EVENT Sample.gateway_without_decoders
    (mkEvent (Some ["event:ContractMappingConfirmed"]) "AAEC") =
  ([Deserialize "TransferGatewayContractMappingConfirmed"
      (B64ToUint8Array "AAEC")],
   Throw (VError (new_Error "decode"))).
Proof.
  destruct (@contract_mapping_event_run Sample.imports) as [Hrun _].
  split.
  - by rewrite (Hrun (Sample.gateway None)
                  (mkEvent (Some ["event:ContractMappingConfirmed"]) "AAEC")
                  [] eq_refl).
  - by rewrite (Hrun Sample.gateway_without_decoders
                  (mkEvent (Some ["event:ContractMappingConfirmed"]) "AAEC")
                  [] eq_refl).
Defined.

(** A transport that is down makes the receipt query fail with the
    transport's exception. *)
Lemma withdrawalReceiptAsync_failure_witness :
  withdrawalReceiptAsync Sample.gateway_offline "owner" =
  Throw (VString "offline").
Proof.
  apply withdrawalReceiptAsync_failure. by left.
Defined.

(** On a chain with the gateway deployed at "0xG" the binding is created
    for it; on a chain without it, creation fails. *)
Lemma createAsync_outcome_witness :
  createAsync (Sample.chain_with_gateway (Some "0xG")) "0xC" =
  Ok (mkGateway "0xG" "0xC" (Sample.chain_with_gateway (Some "0xG"))) /\
  createAsync (Sample.chain_with_gateway None) "0xC" =
  Throw (VError (new_Error
    "Failed to resolve contract address for TransferGateway")).
Proof.
  split.
  - apply (createAsync_outcome (Sample.chain_with_gateway (Some "0xG")) "0xC").
    by exists "0xG".
  - by apply (proj1 (proj2 (createAsync_outcome
                              (Sample.chain_with_gateway None) "0xC"))).
Defined.

End GatewayExtras.
